(** * qwen_tts.py: a shallow embedding and its verified properties

    The script is a command-line front end: three commands ([clone],
    [design], [custom]) pick a model identifier from the static table
    [MODELS], load the model through mlx-audio, run generation, concatenate
    the streamed audio chunks and write one sound file.

    Everything the script delegates (the host platform, the clock, the
    model loader, the generator, the sound-file writer) is a field of an
    environment record [env].  The file system and the number of clock
    readings taken form the [world] the code threads through the monad [M];
    a run also returns, in order, the [event]s it caused: what it printed
    and which calls it made. *)

From Stdlib Require Import QArith Ascii.
From stdpp Require Import gmap strings list fin_maps.

Local Open Scope string_scope.
Local Open Scope Z_scope.

(** ** Python strings

    A [str] is a sequence of code points; it is modelled by the [string]
    of its UTF-8 bytes.  Concatenation, comparison and emptiness are then
    those of the bytes, and the operations that count or look at
    characters ([len], slicing, [rfind], [strip]) go by code point: a
    byte of the form 10xxxxxx continues the character before it.  Only
    the operations the script (and the part of [pathlib] it goes
    through) uses are defined. *)

Module PyStr.

Definition byte (a : ascii) : Z := Z.of_N (N_of_ascii a).

(** A byte that continues a character. *)
Definition is_continuation (a : ascii) : bool :=
  (128 <=? byte a) && (byte a <? 192).

(** [len(s)]: the number of code points. *)
Fixpoint len (s : string) : Z :=
  match s with
  | EmptyString => 0
  | String a s' => (if is_continuation a then 0 else 1) + len s'
  end.

(** [s.rfind(c)] for an ASCII character [c]: the index, in code points,
    of its last occurrence in [s], [-1] when absent. *)
Fixpoint rfind (c : ascii) (s : string) : Z :=
  match s with
  | EmptyString => -1
  | String a s' =>
      let r := rfind c s' in
      if 0 <=? r then r + (if is_continuation a then 0 else 1)
      else if Ascii.eqb a c then 0 else -1
  end.

(** The bytes that continue the character [s] is cut in, dropped. *)
Fixpoint skip_continuation (s : string) : string :=
  match s with
  | EmptyString => EmptyString
  | String a s' => if is_continuation a then skip_continuation s' else s
  end.

(** The bytes that continue the character [s] is cut in. *)
Fixpoint take_continuation (s : string) : string :=
  match s with
  | EmptyString => EmptyString
  | String a s' =>
      if is_continuation a then String a (take_continuation s') else EmptyString
  end.

Fixpoint drop_chars (n : nat) (s : string) : string :=
  match n with
  | O => s
  | S n' =>
      match s with
      | EmptyString => EmptyString
      | String _ s' => drop_chars n' (skip_continuation s')
      end
  end.

Fixpoint take_chars (n : nat) (s : string) : string :=
  match n with
  | O => EmptyString
  | S n' =>
      match s with
      | EmptyString => EmptyString
      | String a s' =>
          String a (take_continuation s' +:+ take_chars n' (skip_continuation s'))
      end
  end.

(** [s[i:]] for [0 <= i]. *)
Definition slice_from (i : Z) (s : string) : string := drop_chars (Z.to_nat i) s.

(** [s[:n]] for [0 <= n]. *)
Definition slice_to (n : Z) (s : string) : string := take_chars (Z.to_nat n) s.

(** [s.split(sep)] for a one-character separator. *)
Fixpoint split (sep : ascii) (s : string) : list string :=
  match s with
  | EmptyString => [EmptyString]
  | String a s' =>
      if Ascii.eqb a sep then EmptyString :: split sep s'
      else match split sep s' with
           | h :: t => String a h :: t
           | [] => [String a EmptyString]
           end
  end.

(** [sep.join(l)]. *)
Fixpoint join (sep : string) (l : list string) : string :=
  match l with
  | [] => EmptyString
  | [x] => x
  | x :: l' => x +:+ sep +:+ join sep l'
  end.

(** The characters [str.strip()] removes are those [str.isspace] accepts:
    U+0009-000D, U+001C-0020, U+0085, U+00A0, U+1680, U+2000-200A, U+2028,
    U+2029, U+202F, U+205F and U+3000.  In UTF-8 they take one, two or
    three bytes. *)
Definition isspace1 (a : ascii) : bool :=
  ((9 <=? byte a) && (byte a <=? 13)) || ((28 <=? byte a) && (byte a <=? 32)).

Definition isspace2 (a b : ascii) : bool :=
  (byte a =? 194) && ((byte b =? 133) || (byte b =? 160)).

Definition isspace3 (a b c : ascii) : bool :=
  ((byte a =? 225) && (byte b =? 154) && (byte c =? 128))
  || ((byte a =? 226) && (byte b =? 128)
      && (((128 <=? byte c) && (byte c <=? 138))
          || (byte c =? 168) || (byte c =? 169) || (byte c =? 175)))
  || ((byte a =? 226) && (byte b =? 129) && (byte c =? 159))
  || ((byte a =? 227) && (byte b =? 128) && (byte c =? 128)).

(** [s.lstrip()]. *)
Fixpoint lstrip (s : string) : string :=
  match s with
  | EmptyString => EmptyString
  | String a s1 =>
      if isspace1 a then lstrip s1
      else match s1 with
           | EmptyString => s
           | String b s2 =>
               if isspace2 a b then lstrip s2
               else match s2 with
                    | EmptyString => s
                    | String c s3 => if isspace3 a b c then lstrip s3 else s
                    end
           end
  end.

(** The same from the other end, on the bytes in reverse order. *)
Fixpoint lstrip_reversed (s : string) : string :=
  match s with
  | EmptyString => EmptyString
  | String a s1 =>
      if isspace1 a then lstrip_reversed s1
      else match s1 with
           | EmptyString => s
           | String b s2 =>
               if isspace2 b a then lstrip_reversed s2
               else match s2 with
                    | EmptyString => s
                    | String c s3 =>
                        if isspace3 c b a then lstrip_reversed s3 else s
                    end
           end
  end.

Fixpoint reverse_onto (s acc : string) : string :=
  match s with
  | EmptyString => acc
  | String a s' => reverse_onto s' (String a acc)
  end.

Definition reverse (s : string) : string := reverse_onto s EmptyString.

(** [s.rstrip()]. *)
Definition rstrip (s : string) : string := reverse (lstrip_reversed (reverse s)).

(** [s.strip()]. *)
Definition strip (s : string) : string := rstrip (lstrip s).

(** Truthiness of a string: [bool(s)]. *)
Definition truthy (s : string) : bool :=
  match s with EmptyString => false | _ => true end.

(** A string without an opening bracket.  rich reads every message
    handed to [console.print] as markup, and a tag starts with an opening
    bracket: a string without one is printed as it is wherever it is put
    in a message, and cannot make the console refuse the message. *)
Fixpoint plain (s : string) : bool :=
  match s with
  | EmptyString => true
  | String a s' => negb (Ascii.eqb a "[") && plain s'
  end.

End PyStr.

(** ** [pathlib.Path] on a POSIX host

    A path is parsed once, when it is built: the root is split off, the
    rest is cut at every slash, and empty components and single dots are
    dropped (CPython 3.10-3.12, [_PosixFlavour.parse_parts]). *)

Module PyPath.

Record Path := mkPath { root : string; parts : list string }.

(** [splitroot]: exactly two leading slashes are kept, any other number of
    leading slashes collapses to one. *)
Definition splitroot (s : string) : string * string :=
  match s with
  | String "/" (String "/" (String "/" _)) => ("/", s)
  | String "/" (String "/" r) => ("//", r)
  | String "/" r => ("/", r)
  | _ => ("", s)
  end.

Definition keep_part (x : string) : bool :=
  negb (String.eqb x "" || String.eqb x ".").

(** [Path(s)]. *)
Definition of_str (s : string) : Path :=
  let '(r, rest) := splitroot s in
  mkPath r (filter (fun x => Is_true (keep_part x)) (PyStr.split "/" rest)).

(** [str(p)]. *)
Definition to_str (p : Path) : string :=
  match root p, parts p with
  | "", [] => "."
  | r, ps => r +:+ PyStr.join "/" ps
  end.

(** [p.name]: the final component, empty when there is none. *)
Definition name (p : Path) : string := List.last (parts p) "".

(** [p.suffix]: from the last dot of the name on, unless that dot is the
    first or the last character of the name. *)
Definition suffix (p : Path) : string :=
  let nm := name p in
  let i := PyStr.rfind "." nm in
  if (0 <? i) && (i <? PyStr.len nm - 1) then PyStr.slice_from i nm else "".

End PyPath.

(** ** Exceptions and results *)

(** The exceptions that can cross the script.  [Exit] is [typer.Exit];
    [Foreign] stands for whatever mlx-audio or soundfile raise. *)
Inductive exn :=
| Exit (code : Z)
| KeyError (key : string)
| ValueError (msg : string)
| TypeError (msg : string)
| OSError (msg : string)
| UnicodeDecodeError
| Foreign (what : string).

Inductive result (A : Type) :=
| Ok (a : A)
| Raise (e : exn).
Arguments Ok {A} a.
Arguments Raise {A} e.

(** The status the process ends with: [typer.Exit(code)] gives [code], any
    other exception that reaches the top gives 1. *)
Definition exit_status {A} (r : result A) : Z :=
  match r with
  | Ok _ => 0
  | Raise (Exit c) => c
  | Raise _ => 1
  end.

(** ** NumPy arrays

    An array is its shape and its elements in row-major order; a
    one-dimensional chunk of [n] samples has shape [[n]]. *)

Module Np.

Definition sample := Z.

Record ndarray := mk { shape : list nat; data : list sample }.

Definition vec (l : list sample) : ndarray := mk [length l] l.

Definition ndim (a : ndarray) : nat := length (shape a).

(** [np.array(x, copy=False)] of something that already is an array. *)
Definition array (a : ndarray) : ndarray := a.

(** Two arrays agree on every dimension but the first. *)
Definition same_trailing (x a : ndarray) : bool :=
  bool_decide (tail (shape x) = tail (shape a)).

(** [np.concatenate(l)] along the first axis. *)
Definition concatenate (l : list ndarray) : result ndarray :=
  match l with
  | [] => Raise (ValueError "need at least one array to concatenate")
  | a :: _ =>
      if existsb (fun x => Nat.eqb (ndim x) 0) l then
        Raise (ValueError "zero-dimensional arrays cannot be concatenated")
      else if negb (forallb (fun x => Nat.eqb (ndim x) (ndim a)) l) then
        Raise (ValueError "all the input arrays must have same number of dimensions")
      else if negb (forallb (fun x => same_trailing x a) l) then
        Raise (ValueError "all the input array dimensions except for the concatenation axis must match exactly")
      else
        Ok (mk (sum_list (map (fun x => hd 0%nat (shape x)) l) :: tail (shape a))
               (concat (map data l)))
  end.

(** [len(a)]. *)
Definition len (a : ndarray) : result Z :=
  match shape a with
  | [] => Raise (TypeError "len() of unsized object")
  | n :: _ => Ok (Z.of_nat n)
  end.

End Np.

Arguments Np.concatenate : simpl never.
Arguments Np.len : simpl never.

(** ** The world the script runs in *)

(** What a regular file holds, as far as the script can tell. *)
Inductive filedata :=
| Text (s : string)                        (* readable, decodes to the text [s] *)
| Opaque                                   (* cannot be opened or decoded *)
| Sound (rate : Z) (audio : Np.ndarray).   (* written by soundfile *)

(** What [os.stat] finds at a path.  [Unreachable] is a path where [stat]
    fails with an error outside the set [pathlib] swallows (ENOENT,
    ENOTDIR, EBADF, ELOOP), for instance EACCES or ENAMETOOLONG. *)
Inductive node :=
| Directory
| Regular (d : filedata)
| Unreachable.

(** A keyword argument value. *)
Inductive pyval :=
| PStr (s : string)
| PNone.

Definition kwargs := list (string * pyval).

(** What one item of [model.generate(...)] carries. *)
Record GenerationResult := { audio : Np.ndarray }.

(** One run of the generator: the items it yields, then [StopIteration]
    or the exception that ends it. *)
Record generation := { yielded : list GenerationResult; raised : option exn }.

Record Model := { generate : kwargs -> generation }.

(** What happened, in order. *)
Inductive event :=
| Print (msg : string)
| PrintSaved (output : string) (duration elapsed : Q)
| StatusEnter (msg : string)
| StatusExit
| LoadModel (model_id : string)
| PerfCounter (t : Q)
| Generate (kw : kwargs)
| Append (chunk : Np.ndarray)
| Concatenate (chunks : list Np.ndarray)
| SfWrite (path : string) (data : Np.ndarray) (rate : Z).

Record world := {
  files : gmap string node;
  clock_reads : nat;
}.

(** The collaborators the script does not implement.  The loader and the
    generator are taken to leave alone the files the script itself reads
    and writes, which are all the file map of a [world] holds; what
    mlx-audio downloads and caches is elsewhere, and not in the map. *)
Record env := {
  platform_machine : string;
  perf_counter_at : nat -> Q;
  load_model : string -> result Model;
  soundfile_write :
    string -> Np.ndarray -> Z -> gmap string node -> gmap string node * option exn;
}.

(** ** The monad: state, exceptions and an event log *)

Record run (A : Type) := Run {
  outcome : result A;
  after : world;
  events : list event;
}.
Arguments Run {A} outcome after events.
Arguments outcome {A} r.
Arguments after {A} r.
Arguments events {A} r.

Definition M (A : Type) : Type := world -> run A.

Definition ret {A} (a : A) : M A := fun w => Run (Ok a) w [].

Definition raise {A} (e : exn) : M A := fun w => Run (Raise e) w [].

Definition bind {A B} (m : M A) (k : A -> M B) : M B :=
  fun w =>
    match m w with
    | Run (Ok a) w1 t1 =>
        match k a w1 with
        | Run r w2 t2 => Run r w2 (t1 ++ t2)
        end
    | Run (Raise e) w1 t1 => Run (Raise e) w1 t1
    end.

#[export] Instance M_ret : MRet M := @ret.
#[export] Instance M_bind : MBind M := fun A B k m => bind m k.

Notation "'let*' x ':=' m 'in' k" := (bind m (fun x => k))
  (at level 10, x name, m at level 100, k at level 200).
Notation "'let*' ' pat ':=' m 'in' k" := (bind m (fun x => match x with pat => k end))
  (at level 10, pat pattern, m at level 100, k at level 200).

Definition lift {A} (r : result A) : M A := fun w => Run r w [].

Definition emit (e : event) : M unit := fun w => Run (Ok tt) w [e].

(** [with console.status(msg): body]: the status is taken down however
    the body ends. *)
Definition with_status {A} (msg : string) (body : M A) : M A :=
  fun w =>
    match body w with
    | Run r w' t => Run r w' (StatusEnter msg :: t ++ [StatusExit])
    end.

(** [d[k]] on a dictionary. *)
Definition getitem {V} (d : gmap string V) (k : string) : M V :=
  match d !! k with
  | Some v => ret v
  | None => raise (KeyError k)
  end.

(** ** The script *)

Definition SAMPLE_RATE : Z := 24000.

Definition MODELS : gmap string (gmap string string) :=
  <["clone" :=
      <["0.6B" := "mlx-community/Qwen3-TTS-12Hz-0.6B-Base-bf16"]>
      (<["1.7B" := "mlx-community/Qwen3-TTS-12Hz-1.7B-Base-bf16"]> ∅)]>
  (<["custom" :=
      <["0.6B" := "mlx-community/Qwen3-TTS-12Hz-0.6B-CustomVoice-bf16"]>
      (<["1.7B" := "mlx-community/Qwen3-TTS-12Hz-1.7B-CustomVoice-bf16"]> ∅)]>
  (<["design" :=
      <["1.7B" := "mlx-community/Qwen3-TTS-12Hz-1.7B-VoiceDesign-bf16"]> ∅]>
   ∅)).

(** [MODELS[mode][size]], the expression every command selects its model
    with. *)
Definition lookup (mode size : string) : M string :=
  let* by_size := getitem MODELS mode in
  getitem by_size size.

Arguments lookup : simpl never.

Inductive ModelSize := small | large.

(** [model_size.value]. *)
Definition value (s : ModelSize) : string :=
  match s with
  | small => "0.6B"
  | large => "1.7B"
  end.

(** [a / b] on integers: Python's true division, kept exact. *)
Definition true_div (a b : Z) : Q := (inject_Z a / inject_Z b)%Q.

(** [s[:80]] followed by an ellipsis when [s] is longer, as both previews
    print it. *)
Definition preview (s : string) : string :=
  PyStr.slice_to 80 s +:+ (if 80 <? PyStr.len s then "…" else "").

Definition APPLE_SILICON_WARNING : string :=
  "[bold yellow]Warning:[/] This script is optimized for Apple Silicon (arm64). "
  +:+ "Performance may be degraded on this platform.".

Section Script.

Context (E : env).

(** [console.print(msg)], recorded as the message handed over.  rich
    reads the message as markup and raises when a closing tag closes
    nothing; the script's own tags are balanced, so this can only come
    from text of the user's that the script puts into a message.  That
    refusal is not part of the model, which describes the runs in which
    rich accepts what it is handed; it does whenever the text put in is
    [PyStr.plain]. *)
Definition print (msg : string) : M unit := emit (Print msg).

(** [time.perf_counter()]. *)
Definition perf_counter : M Q :=
  fun w =>
    let t := perf_counter_at E (clock_reads w) in
    Run (Ok t) {| files := files w; clock_reads := S (clock_reads w) |} [PerfCounter t].

(** [p.is_file()]. *)
Definition is_file (p : PyPath.Path) : M bool :=
  fun w =>
    match files w !! PyPath.to_str p with
    | Some (Regular _) => Run (Ok true) w []
    | Some Unreachable => Run (Raise (OSError "stat")) w []
    | Some Directory | None => Run (Ok false) w []
    end.

(** [p.read_text()]. *)
Definition read_text (p : PyPath.Path) : M string :=
  fun w =>
    match files w !! PyPath.to_str p with
    | Some (Regular (Text s)) => Run (Ok s) w []
    | Some (Regular (Sound _ _)) => Run (Raise UnicodeDecodeError) w []
    | Some (Regular Opaque) => Run (Raise (OSError "open")) w []
    | Some Directory => Run (Raise (OSError "Is a directory")) w []
    | Some Unreachable => Run (Raise (OSError "open")) w []
    | None => Run (Raise (OSError "No such file or directory")) w []
    end.

(** [sf.write(path, data, rate)]. *)
Definition sf_write (path : string) (data : Np.ndarray) (rate : Z) : M unit :=
  fun w =>
    match soundfile_write E path data rate (files w) with
    | (fs, err) =>
        Run (match err with Some e => Raise e | None => Ok tt end)
            {| files := fs; clock_reads := clock_reads w |}
            [SfWrite path data rate]
    end.

Definition _check_apple_silicon : M unit :=
  if negb (String.eqb (platform_machine E) "arm64"
           || String.eqb (platform_machine E) "aarch64")
  then print APPLE_SILICON_WARNING
  else mret tt.

Definition _read_file_or_string (value : string) : M string :=
  let p := PyPath.of_str value in
  if String.eqb (PyPath.suffix p) ".txt" then
    let* b := is_file p in
    if b then let* s := read_text p in mret (PyStr.strip s)
    else mret value
  else mret value.

Definition _load_model (model_id : string) : M Model :=
  with_status "[bold green]Loading model…"
    (emit (LoadModel model_id);; lift (load_model E model_id)).

(** The body of the [for] loop, once per item. *)
Fixpoint append_all (rs : list GenerationResult) (audio_chunks : list Np.ndarray)
  : M (list Np.ndarray) :=
  match rs with
  | [] => mret audio_chunks
  | r :: rs' =>
      let c := Np.array (audio r) in
      emit (Append c);; append_all rs' (audio_chunks ++ [c])
  end.

(** The whole [for result in model.generate(...)] loop. *)
Definition for_generate (m : Model) (gen_kwargs : kwargs)
    (audio_chunks : list Np.ndarray) : M (list Np.ndarray) :=
  emit (Generate gen_kwargs);;
  let g := generate m gen_kwargs in
  let* chunks := append_all (yielded g) audio_chunks in
  match raised g with
  | Some e => raise e
  | None => mret chunks
  end.

Definition np_concatenate (chunks : list Np.ndarray) : M Np.ndarray :=
  emit (Concatenate chunks);; lift (Np.concatenate chunks).

Definition _generate_and_save (m : Model) (output : PyPath.Path) (gen_kwargs : kwargs)
  : M unit :=
  let* '(audio_chunks, elapsed) :=
    with_status "[bold green]Generating audio…"
      (let* t0 := perf_counter in
       let* audio_chunks := for_generate m gen_kwargs [] in
       let* t1 := perf_counter in
       mret (audio_chunks, (t1 - t0)%Q)) in
  match audio_chunks with
  | [] =>
      print "[bold red]Error:[/] No audio generated.";;
      raise (Exit 1)
  | _ =>
      let* audio := np_concatenate audio_chunks in
      sf_write (PyPath.to_str output) audio SAMPLE_RATE;;
      let* n := lift (Np.len audio) in
      let duration := true_div n SAMPLE_RATE in
      emit (PrintSaved (PyPath.to_str output) duration elapsed)
  end.

Definition clone (text : string) (ref_audio : PyPath.Path) (ref_text : string)
    (output : PyPath.Path) (model_size : ModelSize) : M unit :=
  _check_apple_silicon;;
  let* b := is_file ref_audio in
  if negb b then
    print ("[bold red]Error:[/] Reference audio not found: " +:+ PyPath.to_str ref_audio);;
    raise (Exit 1)
  else
    let* model_id := lookup "clone" (value model_size) in
    print ("Mode [bold]clone[/] | model [bold]" +:+ model_id +:+ "[/]");;
    let* m := _load_model model_id in
    _generate_and_save m output
      [("text", PStr text);
       ("ref_audio", PStr (PyPath.to_str ref_audio));
       ("ref_text", PStr ref_text)].

Definition design (text voice language : string) (output : PyPath.Path) : M unit :=
  _check_apple_silicon;;
  let* voice_desc := _read_file_or_string voice in
  let* model_id := lookup "design" "1.7B" in
  print ("Mode [bold]design[/] | model [bold]" +:+ model_id +:+ "[/]");;
  print ("Voice: [dim]" +:+ preview voice_desc +:+ "[/]");;
  let* m := _load_model model_id in
  _generate_and_save m output
    [("text", PStr text);
     ("instruct", PStr voice_desc);
     ("lang_code", PStr language)].

Definition custom (text speaker : string) (instruct : option string)
    (language : string) (output : PyPath.Path) (model_size : ModelSize) : M unit :=
  _check_apple_silicon;;
  let* model_id := lookup "custom" (value model_size) in
  print ("Mode [bold]custom[/] | model [bold]" +:+ model_id
         +:+ "[/] | speaker [bold]" +:+ speaker +:+ "[/]");;
  let* instruct_text :=
    match instruct with
    | Some i =>
        if PyStr.truthy i then
          let* t := _read_file_or_string i in
          print ("Instruct: [dim]" +:+ preview t +:+ "[/]");;
          mret (PStr t)
        else mret PNone
    | None => mret PNone
    end in
  let* m := _load_model model_id in
  _generate_and_save m output
    [("text", PStr text);
     ("voice", PStr speaker);
     ("instruct", instruct_text);
     ("lang_code", PStr language)].

End Script.

(** ** Concrete collaborators, for running the script on examples *)

(** A writer that succeeds and replaces whatever was at [path]. *)
Definition plain_write (path : string) (data : Np.ndarray) (rate : Z)
    (fs : gmap string node) : gmap string node * option exn :=
  (<[path := Regular (Sound rate data)]> fs, None).

(** A generator that yields one one-dimensional chunk per list and stops. *)
Definition chunks_of (ls : list (list Np.sample)) : generation :=
  {| yielded := map (fun l => {| audio := Np.vec l |}) ls; raised := None |}.

Definition fixed_model (g : generation) : Model := {| generate := fun _ => g |}.

(** A host named [machine] whose clock advances by one per reading and
    whose loader always returns a model that generates [g]. *)
Definition host (machine : string) (g : generation) : env :=
  {| platform_machine := machine;
     perf_counter_at := fun n => inject_Z (Z.of_nat n);
     load_model := fun _ => Ok (fixed_model g);
     soundfile_write := plain_write |}.

Definition boot (fs : gmap string node) : world := {| files := fs; clock_reads := 0 |}.

(** A loader that cannot fetch anything. *)
Definition offline : env :=
  {| platform_machine := "arm64";
     perf_counter_at := fun n => inject_Z (Z.of_nat n);
     load_model := fun _ => Raise (Foreign "download failed");
     soundfile_write := plain_write |}.

(** ** Reading an event log *)

(** The calls to [sf.write] in a log: path, buffer and sample rate. *)
Definition written (t : list event) : list (string * Np.ndarray * Z) :=
  omap (fun e => match e with SfWrite p d r => Some (p, d, r) | _ => None end) t.

(** The durations printed by the closing message. *)
Definition reported_durations (t : list event) : list Q :=
  omap (fun e => match e with PrintSaved _ d _ => Some d | _ => None end) t.

(** The keyword arguments of the calls to [model.generate]. *)
Definition generation_calls (t : list event) : list kwargs :=
  omap (fun e => match e with Generate kw => Some kw | _ => None end) t.

(** The identifiers handed to the model loader. *)
Definition loads (t : list event) : list string :=
  omap (fun e => match e with LoadModel i => Some i | _ => None end) t.

(** The status lines shown. *)
Definition statuses (t : list event) : list string :=
  omap (fun e => match e with StatusEnter s => Some s | _ => None end) t.

(** A log in which the clock is read at some point after an array
    concatenation. *)
Definition reads_clock_after_concatenation (t : list event) : Prop :=
  exists t1 t2 cs q, t = (t1 ++ Concatenate cs :: t2)%list /\ PerfCounter q ∈ t2.

(** The chunks the loop collects from one run of the generator. *)
Definition received (g : generation) : list Np.ndarray :=
  map (fun r => Np.array (audio r)) (yielded g).

(** The events of the timed loop up to and including the last chunk. *)
Definition loop_events (E : env) (m : Model) (kw : kwargs) (w : world) : list event :=
  StatusEnter "[bold green]Generating audio…"
  :: PerfCounter (perf_counter_at E (clock_reads w))
  :: Generate kw
  :: map Append (received (generate m kw)).

(** The second clock reading, which stops the timer. *)
Definition timer_stop (E : env) (w : world) : event :=
  PerfCounter (perf_counter_at E (S (clock_reads w))).

Definition elapsed_at (E : env) (w : world) : Q :=
  (perf_counter_at E (S (clock_reads w)) - perf_counter_at E (clock_reads w))%Q.

Definition ticked (n : nat) (w : world) : world :=
  {| files := files w; clock_reads := n + clock_reads w |}.

(** The kinds of event that follow the last chunk of a pipeline run. *)
Definition closes_pipeline (e : event) : bool :=
  match e with
  | PerfCounter _ | StatusExit | Print _ | Concatenate _
  | SfWrite _ _ _ | PrintSaved _ _ _ => true
  | _ => false
  end.

(** What every command ends with: load the model, then generate and
    save with it. *)
Definition load_and_generate (E : env) (model_id : string) (output : PyPath.Path)
    (kw : kwargs) : M unit :=
  let* m := _load_model E model_id in
  _generate_and_save E m output kw.

(** ** Describing whole runs *)

(** The number of frames of an array: its extent along the first axis. *)
Definition frames (a : Np.ndarray) : nat := hd 0%nat (Np.shape a).

(** The elapsed times printed by the closing message. *)
Definition reported_elapsed (t : list event) : list Q :=
  omap (fun e => match e with PrintSaved _ _ el => Some el | _ => None end) t.

(** Following the status line through a log: [up] tells whether a status
    is showing; a status put up while one is showing, or taken down while
    none is, has no result. *)
Fixpoint status_run (up : bool) (t : list event) : option bool :=
  match t with
  | [] => Some up
  | StatusEnter _ :: t' => if up then None else status_run true t'
  | StatusExit :: t' => if up then status_run false t' else None
  | _ :: t' => status_run up t'
  end.

(** A log in which every status put up is taken down again, none inside
    another. *)
Definition statuses_balanced (t : list event) : Prop := status_run false t = Some false.

(** A clock that never runs backwards. *)
Definition monotonic (E : env) : Prop :=
  forall n, (perf_counter_at E n <= perf_counter_at E (S n))%Q.

(** A run that called [sf.write] once, for the output path at 24000 Hz,
    and closed with the message giving that path and the duration of what
    it wrote. *)
Definition saved_once (output : PyPath.Path) (r : run unit) : Prop :=
  exists a before elapsed,
    written (events r) = [(PyPath.to_str output, a, 24000)]
    /\ events r =
         (before ++ [PrintSaved (PyPath.to_str output)
                       (true_div (Z.of_nat (frames a)) 24000) elapsed])%list.

(** A run stopped by the exception [e] before generation was asked for
    anything and before [sf.write] was called. *)
Definition stopped_before_generation (e : exn) (r : run unit) : Prop :=
  outcome r = Raise e
  /\ generation_calls (events r) = []
  /\ written (events r) = [].

(** ** Describing what the commands do *)

Definition is_apple_silicon (machine : string) : bool :=
  String.eqb machine "arm64" || String.eqb machine "aarch64".

(** What the platform check prints on the host of [E]. *)
Definition platform_notice (E : env) : list event :=
  if is_apple_silicon (platform_machine E) then [] else [Print APPLE_SILICON_WARNING].

(** The same collaborators on a host that reports [machine]. *)
Definition on_machine (machine : string) (E : env) : env :=
  {| platform_machine := machine;
     perf_counter_at := perf_counter_at E;
     load_model := load_model E;
     soundfile_write := soundfile_write E |}.

(** The events of [_load_model]. *)
Definition load_events (model_id : string) : list event :=
  [StatusEnter "[bold green]Loading model…"; LoadModel model_id; StatusExit].

(** The rows of [MODELS] by size, as [lookup_clone], [lookup_custom] and
    [lookup_design] show [lookup] to return them. *)
Definition CLONE_IDS (s : ModelSize) : string :=
  match s with
  | small => "mlx-community/Qwen3-TTS-12Hz-0.6B-Base-bf16"
  | large => "mlx-community/Qwen3-TTS-12Hz-1.7B-Base-bf16"
  end.

Definition CUSTOM_IDS (s : ModelSize) : string :=
  match s with
  | small => "mlx-community/Qwen3-TTS-12Hz-0.6B-CustomVoice-bf16"
  | large => "mlx-community/Qwen3-TTS-12Hz-1.7B-CustomVoice-bf16"
  end.

Definition DESIGN_ID : string := "mlx-community/Qwen3-TTS-12Hz-1.7B-VoiceDesign-bf16".

(** The five pairs the table has an entry for. *)
Definition registered : list (string * string) :=
  [("clone", "0.6B"); ("clone", "1.7B");
   ("custom", "0.6B"); ("custom", "1.7B");
   ("design", "1.7B")].

(** ** The model on examples *)

Example suffix_plain : PyPath.suffix (PyPath.of_str "voices/warm.txt") = ".txt".
Proof. reflexivity. Qed.

Example suffix_upper : PyPath.suffix (PyPath.of_str "voices/warm.TXT") = ".TXT".
Proof. reflexivity. Qed.

Example suffix_hidden : PyPath.suffix (PyPath.of_str ".txt") = "".
Proof. reflexivity. Qed.

Example suffix_trailing_dot : PyPath.suffix (PyPath.of_str "warm.txt.") = "".
Proof. reflexivity. Qed.

Example suffix_trailing_slash : PyPath.suffix (PyPath.of_str "voices/warm.txt/") = ".txt".
Proof. reflexivity. Qed.

Example suffix_sentence :
  PyPath.suffix (PyPath.of_str "A warm, friendly female voice with clear enunciation.") = "".
Proof. reflexivity. Qed.

Example to_str_normalises :
  PyPath.to_str (PyPath.of_str "./a//b/./c.txt/") = "a/b/c.txt".
Proof. reflexivity. Qed.

Example to_str_empty : PyPath.to_str (PyPath.of_str "") = ".".
Proof. reflexivity. Qed.

Example to_str_rooted : PyPath.to_str (PyPath.of_str "/tmp//out.wav") = "/tmp/out.wav".
Proof. reflexivity. Qed.

Example strip_example :
  PyStr.strip ("  calm and slow" +:+ String "010" " ") = "calm and slow".
Proof. reflexivity. Qed.

Example concatenate_nothing :
  Np.concatenate [] = Raise (ValueError "need at least one array to concatenate").
Proof. reflexivity. Qed.

Example concatenate_scalar :
  Np.concatenate [Np.vec [1]; Np.mk [] [2]]
  = Raise (ValueError "zero-dimensional arrays cannot be concatenated").
Proof. reflexivity. Qed.

Example concatenate_two : Np.concatenate [Np.vec [1; 2]; Np.vec [3]] = Ok (Np.vec [1; 2; 3]).
Proof. reflexivity. Qed.

Example preview_short : preview "A calm voice." = "A calm voice.".
Proof. reflexivity. Qed.

(** Characters of more than one byte count once each: the ellipsis has
    length one, and forty-one accented letters are shown whole. *)
Example len_ellipsis : PyStr.len "…" = 1.
Proof. reflexivity. Qed.

Example len_accents : PyStr.len "déjà vu" = 7.
Proof. reflexivity. Qed.

Example slice_accents : PyStr.slice_to 3 "déjà vu" = "déj".
Proof. reflexivity. Qed.

Example preview_accents :
  preview "ééééééééééééééééééééééééééééééééééééééééé"
  = "ééééééééééééééééééééééééééééééééééééééééé".
Proof. vm_compute. reflexivity. Qed.

Example preview_long :
  preview "0123456789012345678901234567890123456789012345678901234567890123456789012345678901234567890123456789"
  = "01234567890123456789012345678901234567890123456789012345678901234567890123456789…".
Proof. vm_compute. reflexivity. Qed.

Example suffix_accents : PyPath.suffix (PyPath.of_str "é.é") = ".é".
Proof. vm_compute. reflexivity. Qed.

Example suffix_accented_stem : PyPath.suffix (PyPath.of_str "voix/été.txt") = ".txt".
Proof. vm_compute. reflexivity. Qed.

(** [strip] removes the whitespace of more than one byte too: a no-break
    space (U+00A0) in front, a next-line (U+0085) and an ideographic space
    (U+3000) behind; and it leaves alone what is not whitespace, such as
    the letter à, whose second byte is that of the no-break space. *)
Example strip_unicode :
  PyStr.strip (String "194" (String "160" "hi")
               +:+ String "194" (String "133" (String "227" (String "128" (String "128" "")))))
  = "hi".
Proof. vm_compute. reflexivity. Qed.

(** Every character [str.isspace] accepts, in UTF-8, on both sides of a
    letter. *)
Example strip_every_space :
  let spaces :=
    String.string_of_list_ascii
      (map ascii_of_nat
         [9; 10; 11; 12; 13; 28; 29; 30; 31; 32;
          194; 133; 194; 160; 225; 154; 128;
          226; 128; 128; 226; 128; 129; 226; 128; 130; 226; 128; 131;
          226; 128; 132; 226; 128; 133; 226; 128; 134; 226; 128; 135;
          226; 128; 136; 226; 128; 137; 226; 128; 138;
          226; 128; 168; 226; 128; 169; 226; 128; 175;
          226; 129; 159; 227; 128; 128]%nat) in
  PyStr.len spaces = 29 /\ PyStr.strip (spaces +:+ "x" +:+ spaces) = "x".
Proof. vm_compute. split; reflexivity. Qed.

Example strip_keeps_letters : PyStr.strip " voilà" = "voilà".
Proof. vm_compute. reflexivity. Qed.

Example strip_all_space : PyStr.strip (String "009" (String "010" "  ")) = "".
Proof. vm_compute. reflexivity. Qed.

Example plain_path : PyStr.plain "voices/me.wav" = true.
Proof. reflexivity. Qed.

Example plain_closing_tag : PyStr.plain "[/x].wav" = false.
Proof. reflexivity. Qed.

(** A whole run of [clone] on an Intel host, with the reference file in
    place: what is printed and called, in order, and the file left behind. *)
Example clone_run_example :
  let g := chunks_of [[1; 2]; [3]] in
  let r := clone (host "x86_64" g) "hi" (PyPath.of_str "ref.wav") "t"
             (PyPath.of_str "out.wav") large
             (boot (<["ref.wav" := Regular Opaque]> ∅)) in
  outcome r = Ok tt
  /\ events r =
      [Print APPLE_SILICON_WARNING;
       Print "Mode [bold]clone[/] | model [bold]mlx-community/Qwen3-TTS-12Hz-1.7B-Base-bf16[/]";
       StatusEnter "[bold green]Loading model…";
       LoadModel "mlx-community/Qwen3-TTS-12Hz-1.7B-Base-bf16";
       StatusExit;
       StatusEnter "[bold green]Generating audio…";
       PerfCounter 0;
       Generate [("text", PStr "hi"); ("ref_audio", PStr "ref.wav"); ("ref_text", PStr "t")];
       Append (Np.vec [1; 2]);
       Append (Np.vec [3]);
       PerfCounter 1;
       StatusExit;
       Concatenate [Np.vec [1; 2]; Np.vec [3]];
       SfWrite "out.wav" (Np.vec [1; 2; 3]) 24000;
       PrintSaved "out.wav" (true_div 3 24000) (1 - 0)]
  /\ files (after r) !! "out.wav" = Some (Regular (Sound 24000 (Np.vec [1; 2; 3]))).
Proof. repeat split. Qed.

(** ** Running the monad *)

Ltac run_step :=
  unfold mbind, M_bind, mret, M_ret, bind, ret, raise, lift, emit, print; simpl.

Lemma bind_ok {A B} (m : M A) (k : A -> M B) w a w1 t1 :
  m w = Run (Ok a) w1 t1 ->
  bind m k w = Run (outcome (k a w1)) (after (k a w1)) (t1 ++ events (k a w1)).
Proof. intros H. unfold bind. rewrite H. by destruct (k a w1). Qed.

Lemma bind_raise {A B} (m : M A) (k : A -> M B) w e w1 t1 :
  m w = Run (Raise e) w1 t1 -> bind m k w = Run (Raise e) w1 t1.
Proof. intros H. unfold bind. by rewrite H. Qed.

Lemma run_eta {A} (r : run A) : Run (outcome r) (after r) (events r) = r.
Proof. by destruct r. Qed.

(** ** NumPy: concatenating one-dimensional chunks *)








Lemma concatenate_sized cs a :
  Np.concatenate cs = Ok a -> exists n, Np.len a = Ok n.
Proof.
  unfold Np.concatenate. destruct cs as [|c cs']; [done|].
  destruct (existsb _ _); [done|].
  destruct (negb (forallb (fun x => Nat.eqb _ _) _)); [done|].
  destruct (negb _); [done|].
  intros [= <-]. unfold Np.len. simpl. eauto.
Qed.

(** ** The generation pipeline, run *)

Section Pipeline.

Context (E : env).

Lemma append_all_run rs acc w :
  append_all rs acc w =
  Run (Ok (acc ++ map (fun r => Np.array (audio r)) rs)%list) w
      (map (fun r => Append (Np.array (audio r))) rs).
Proof.
  revert acc. induction rs as [|r rs IH]; intros acc; simpl.
  - run_step. by rewrite app_nil_r.
  - run_step. rewrite IH. by rewrite <- app_assoc.
Qed.

Lemma for_generate_run m kw w :
  for_generate m kw [] w =
  Run (match raised (generate m kw) with
       | Some e => Raise e
       | None => Ok (received (generate m kw))
       end) w
      (Generate kw :: map Append (received (generate m kw))).
Proof.
  unfold for_generate. run_step. rewrite append_all_run. simpl.
  unfold received. rewrite map_map.
  destruct (raised (generate m kw)); simpl; by rewrite ?app_nil_r.
Qed.

Lemma timed_loop_run m kw w :
  with_status "[bold green]Generating audio…"
    (let* t0 := perf_counter E in
     let* audio_chunks := for_generate m kw [] in
     let* t1 := perf_counter E in
     mret (audio_chunks, (t1 - t0)%Q)) w =
  match raised (generate m kw) with
  | Some e => Run (Raise e) (ticked 1 w) (loop_events E m kw w ++ [StatusExit])
  | None =>
      Run (Ok (received (generate m kw), elapsed_at E w)) (ticked 2 w)
          (loop_events E m kw w ++ [timer_stop E w; StatusExit])
  end.
Proof.
  unfold with_status, bind at 1, perf_counter at 1. simpl.
  unfold bind at 1. rewrite for_generate_run.
  destruct (raised (generate m kw)) as [e|]; simpl.
  - unfold loop_events, ticked. simpl. by rewrite ?app_nil_r.
  - unfold loop_events, ticked, timer_stop, elapsed_at. run_step.
    unfold perf_counter. simpl. by rewrite <- ?app_assoc.
Qed.

Lemma generate_and_save_raised m output kw w e :
  raised (generate m kw) = Some e ->
  _generate_and_save E m output kw w =
  Run (Raise e) (ticked 1 w) (loop_events E m kw w ++ [StatusExit]).
Proof.
  intros H. unfold _generate_and_save.
  erewrite bind_raise; [reflexivity|].
  by rewrite timed_loop_run, H.
Qed.

Lemma generate_and_save_empty m output kw w :
  raised (generate m kw) = None ->
  received (generate m kw) = [] ->
  _generate_and_save E m output kw w =
  Run (Raise (Exit 1)) (ticked 2 w)
      (loop_events E m kw w
       ++ [timer_stop E w; StatusExit; Print "[bold red]Error:[/] No audio generated."]).
Proof.
  intros H H0. unfold _generate_and_save.
  erewrite bind_ok; [|by rewrite timed_loop_run, H].
  rewrite H0. run_step. by rewrite <- app_assoc.
Qed.

Lemma generate_and_save_unjoined m output kw w e :
  raised (generate m kw) = None ->
  received (generate m kw) ≠ [] ->
  Np.concatenate (received (generate m kw)) = Raise e ->
  _generate_and_save E m output kw w =
  Run (Raise e) (ticked 2 w)
      (loop_events E m kw w
       ++ [timer_stop E w; StatusExit; Concatenate (received (generate m kw))]).
Proof.
  intros H Hne Hc. unfold _generate_and_save.
  erewrite bind_ok; [|by rewrite timed_loop_run, H].
  destruct (received (generate m kw)) as [|c cs] eqn:Hr; [done|].
  unfold np_concatenate. run_step. rewrite Hc. simpl. by rewrite <- app_assoc.
Qed.

Lemma generate_and_save_joined m output kw w a n :
  raised (generate m kw) = None ->
  Np.concatenate (received (generate m kw)) = Ok a ->
  Np.len a = Ok n ->
  _generate_and_save E m output kw w =
  let path := PyPath.to_str output in
  let wr := soundfile_write E path a SAMPLE_RATE (files w) in
  Run (match wr.2 with Some e => Raise e | None => Ok tt end)
      {| files := wr.1; clock_reads := 2 + clock_reads w |}
      (loop_events E m kw w
       ++ [timer_stop E w; StatusExit; Concatenate (received (generate m kw));
           SfWrite path a SAMPLE_RATE]
       ++ match wr.2 with
          | Some _ => []
          | None => [PrintSaved path (true_div n SAMPLE_RATE) (elapsed_at E w)]
          end).
Proof.
  intros H Hc Hn. unfold _generate_and_save.
  erewrite bind_ok; [|by rewrite timed_loop_run, H].
  destruct (received (generate m kw)) as [|c cs] eqn:Hr; [done|].
  unfold np_concatenate, sf_write. run_step. rewrite Hc. simpl.
  destruct (soundfile_write E (PyPath.to_str output) a SAMPLE_RATE (files w))
    as [fs [e|]]; simpl.
  - by rewrite <- app_assoc.
  - rewrite Hn. simpl. by rewrite <- app_assoc.
Qed.

End Pipeline.

(** ** What the pipeline writes *)

Lemma written_app t1 t2 : written (t1 ++ t2) = (written t1 ++ written t2)%list.
Proof. apply omap_app. Qed.

Lemma reported_durations_app t1 t2 :
  reported_durations (t1 ++ t2) = (reported_durations t1 ++ reported_durations t2)%list.
Proof. apply omap_app. Qed.

Lemma written_appends cs : written (map Append cs) = [].
Proof. induction cs; simpl; done. Qed.

Lemma reported_durations_appends cs : reported_durations (map Append cs) = [].
Proof. induction cs; simpl; done. Qed.

Lemma written_loop E m kw w : written (loop_events E m kw w) = [].
Proof. unfold loop_events. simpl. apply written_appends. Qed.

Lemma reported_durations_loop E m kw w : reported_durations (loop_events E m kw w) = [].
Proof. unfold loop_events. simpl. apply reported_durations_appends. Qed.





(** C2.  When generation stops without having yielded a chunk, the
    pipeline raises [typer.Exit(1)], so the process ends with status 1; it
    never calls [sf.write], and the file system is left as it was. *)
Theorem C2_no_chunks_exit_1 E m output kw w :
  yielded (generate m kw) = [] ->
  raised (generate m kw) = None ->
  let r := _generate_and_save E m output kw w in
  outcome r = Raise (Exit 1)
  /\ exit_status (outcome r) = 1
  /\ written (events r) = []
  /\ files (after r) = files w.
Proof.
  intros Hy Hr r.
  assert (H0 : received (generate m kw) = []) by (unfold received; by rewrite Hy).
  subst r. rewrite (generate_and_save_empty E m output kw w Hr H0).
  cbn [outcome events after]. rewrite written_app, written_loop.
  repeat split.
Qed.

(** C2 at a run whose output path already holds a file. *)
Lemma C2_no_chunks_exit_1_witness :
  let g := chunks_of [] in
  let old := Regular (Sound 24000 (Np.vec [1; 1])) in
  let r := _generate_and_save (host "arm64" g) (fixed_model g)
             (PyPath.of_str "out.wav") [("text", PStr "hello")]
             (boot (<["out.wav" := old]> ∅)) in
  exit_status (outcome r) = 1 /\ files (after r) !! "out.wav" = Some old.
Proof.
  intros g old r.
  pose proof (C2_no_chunks_exit_1 (host "arm64" g) (fixed_model g)
                (PyPath.of_str "out.wav") [("text", PStr "hello")]
                (boot (<["out.wav" := old]> ∅)) eq_refl eq_refl) as H.
  cbv zeta in H. destruct H as (_ & Hs & _ & Hf).
  split; [exact Hs|]. fold r in Hf. rewrite Hf. reflexivity.
Defined.

(** C3.  A run in which the generator raises, or in which the collected
    chunks cannot be concatenated, ends in an exception without a call to
    [sf.write] and with the file system as it was.  Conversely every call
    to [sf.write] a run makes is for the output path at 24000 Hz and
    carries the array that concatenating all the chunks produced, after a
    generator that ended normally. *)
Theorem C3_no_partial_output E m output kw w :
  let g := generate m kw in
  let r := _generate_and_save E m output kw w in
  ((raised g ≠ None \/ exists e, Np.concatenate (received g) = Raise e) ->
   (exists e, outcome r = Raise e)
   /\ written (events r) = []
   /\ files (after r) = files w)
  /\ (forall p d s, (p, d, s) ∈ written (events r) ->
      raised g = None
      /\ Np.concatenate (received g) = Ok d
      /\ p = PyPath.to_str output /\ s = 24000
      /\ exists t1 t2, events r =
           (t1 ++ Concatenate (received g) :: SfWrite p d s :: t2)%list).
Proof.
  intros g r. subst g r.
  destruct (raised (generate m kw)) as [e|] eqn:Hr.
  { rewrite (generate_and_save_raised E m output kw w e Hr).
    cbn [outcome events after]. rewrite written_app, written_loop.
    split; [intros _; eauto | intros p d s Hin; by apply elem_of_nil in Hin]. }
  destruct (received (generate m kw)) as [|c cs] eqn:Hcs.
  { rewrite (generate_and_save_empty E m output kw w Hr Hcs).
    cbn [outcome events after]. rewrite written_app, written_loop.
    split; [intros _; eauto | intros p d s Hin; by apply elem_of_nil in Hin]. }
  destruct (Np.concatenate (c :: cs)) as [a|e] eqn:Hc.
  - destruct (concatenate_sized _ _ Hc) as [n Hn]. rewrite <- Hcs in Hc.
    rewrite (generate_and_save_joined E m output kw w a n Hr Hc Hn).
    cbn [outcome events after]. rewrite !written_app, written_loop.
    rewrite Hcs in *. split.
    + intros [H|[e He]]; [done | congruence].
    + intros p d s Hin.
      assert (Heq : (p, d, s) = (PyPath.to_str output, a, SAMPLE_RATE)).
      { destruct (_.2) in Hin; simpl in Hin;
          apply list_elem_of_singleton in Hin; exact Hin. }
      injection Heq as -> -> ->.
      repeat split; try done.
      eexists (loop_events E m kw w ++ [timer_stop E w; StatusExit])%list, _.
      rewrite <- app_assoc. reflexivity.
  - rewrite <- Hcs in Hc.
    rewrite (generate_and_save_unjoined E m output kw w e Hr
               ltac:(rewrite Hcs; discriminate) Hc).
    cbn [outcome events after]. rewrite written_app, written_loop.
    split; [intros _; eauto | intros p d s Hin; by apply elem_of_nil in Hin].
Qed.

(** C3 at a generator that yields one chunk and then raises, with a file
    already at the output path: the run fails and the file is untouched. *)
Lemma C3_no_partial_output_witness :
  let g := {| yielded := [{| audio := Np.vec [4; 4] |}];
              raised := Some (Foreign "generation failed") |} in
  let old := Regular (Sound 24000 (Np.vec [1; 1])) in
  let r := _generate_and_save (host "arm64" g) (fixed_model g)
             (PyPath.of_str "out.wav") [("text", PStr "hello")]
             (boot (<["out.wav" := old]> ∅)) in
  outcome r = Raise (Foreign "generation failed")
  /\ written (events r) = []
  /\ files (after r) !! "out.wav" = Some old.
Proof.
  intros g old r.
  pose proof (C3_no_partial_output (host "arm64" g) (fixed_model g)
                (PyPath.of_str "out.wav") [("text", PStr "hello")]
                (boot (<["out.wav" := old]> ∅))) as H.
  cbv zeta in H. destruct H as [H _].
  destruct H as (_ & Hw & Hf); [left; discriminate|].
  split; [reflexivity|]. split; [exact Hw|].
  fold r in Hf. rewrite Hf. reflexivity.
Defined.

(** C6, refuted as stated.  On a run that yields two chunks and succeeds,
    the log holds a concatenation, and the clock is not read anywhere
    after it: the timer was stopped before the chunks were concatenated. *)
Lemma C6_timer_not_stopped_after_concatenation :
  let g := chunks_of [[7; -2]; [5]] in
  let r := _generate_and_save (host "arm64" g) (fixed_model g)
             (PyPath.of_str "out.wav") [("text", PStr "hello")] (boot ∅) in
  outcome r = Ok tt
  /\ Concatenate [Np.vec [7; -2]; Np.vec [5]] ∈ events r
  /\ ~ reads_clock_after_concatenation (events r).
Proof.
  intros g r. split; [reflexivity|]. split.
  - vm_compute. do 7 apply list_elem_of_further. apply list_elem_of_here.
  - intros (t1 & t2 & cs & q & Heq & Hin).
    vm_compute in Heq.
    repeat (destruct t1 as [|? t1]; simpl in Heq;
            [try discriminate Heq | injection Heq as _ Heq]).
    all: try (destruct t1; discriminate Heq).
    injection Heq as _ <-.
    repeat (apply elem_of_cons in Hin as [Hin|Hin]; [discriminate Hin|]).
    by apply elem_of_nil in Hin.
Qed.

(** C6, as the code has it.  In every run whose generator ends normally
    and whose chunks concatenate, the steps come in this order: the timer
    is started, the chunks are consumed one by one, the timer is stopped,
    the chunks are concatenated, the file is written; the elapsed time
    printed at the end is the difference of the two clock readings. *)
Theorem C6_timer_stops_before_concatenation E m output kw w a :
  raised (generate m kw) = None ->
  Np.concatenate (received (generate m kw)) = Ok a ->
  let t0 := perf_counter_at E (clock_reads w) in
  let t1 := perf_counter_at E (S (clock_reads w)) in
  let path := PyPath.to_str output in
  exists closing,
    events (_generate_and_save E m output kw w) =
      ([StatusEnter "[bold green]Generating audio…"; PerfCounter t0; Generate kw]
       ++ map Append (received (generate m kw))
       ++ [PerfCounter t1; StatusExit;
           Concatenate (received (generate m kw));
           SfWrite path a 24000]
       ++ closing)%list
    /\ (closing = [] \/ exists d, closing = [PrintSaved path d (t1 - t0)%Q]).
Proof.
  intros Hr Hc t0 t1 path.
  destruct (concatenate_sized _ _ Hc) as [n Hn].
  rewrite (generate_and_save_joined E m output kw w a n Hr Hc Hn).
  cbn [events]. eexists. split; [reflexivity|].
  cbv zeta. destruct (_.2); [by left | right; eauto].
Qed.

(** C6 at the run of the refutation: the second clock reading sits
    between the last chunk and the concatenation. *)
Lemma C6_timer_stops_before_concatenation_witness :
  let g := chunks_of [[7; -2]; [5]] in
  exists closing,
    events (_generate_and_save (host "arm64" g) (fixed_model g)
              (PyPath.of_str "out.wav") [("text", PStr "hello")] (boot ∅)) =
    ([StatusEnter "[bold green]Generating audio…"; PerfCounter 0;
      Generate [("text", PStr "hello")];
      Append (Np.vec [7; -2]); Append (Np.vec [5]);
      PerfCounter 1; StatusExit;
      Concatenate [Np.vec [7; -2]; Np.vec [5]];
      SfWrite "out.wav" (Np.vec [7; -2; 5]) 24000] ++ closing)%list.
Proof.
  intros g.
  destruct (C6_timer_stops_before_concatenation (host "arm64" g) (fixed_model g)
              (PyPath.of_str "out.wav") [("text", PStr "hello")] (boot ∅)
              (Np.vec [7; -2; 5]) eq_refl eq_refl) as (closing & H & _).
  exists closing. exact H.
Defined.

(** ** The suffix of a path *)

Lemma skip_continuation_suffix s :
  exists pre, s = pre +:+ PyStr.skip_continuation s.
Proof.
  induction s as [|a s IH]; [by exists ""|].
  cbn [PyStr.skip_continuation]. destruct (PyStr.is_continuation a).
  - destruct IH as [pre Hpre]. exists (String a pre).
    change (String a s = String a (pre +:+ PyStr.skip_continuation s)). congruence.
  - by exists "".
Qed.

Lemma drop_chars_suffix n s :
  exists pre, s = pre +:+ PyStr.drop_chars n s
              /\ (n <> 0%nat -> s <> "" -> pre <> "").
Proof.
  revert s. induction n as [|n IH]; intros s.
  - exists "". split; [reflexivity | done].
  - destruct s as [|a s]; [exists ""; split; [reflexivity | done]|].
    cbn [PyStr.drop_chars].
    destruct (skip_continuation_suffix s) as [mid Hmid].
    destruct (IH (PyStr.skip_continuation s)) as (pre & Hpre & _).
    exists (String a (mid +:+ pre)). split; [|done].
    change (String a s
            = String a ((mid +:+ pre) +:+ PyStr.drop_chars n (PyStr.skip_continuation s))).
    f_equal. rewrite Hmid at 1. rewrite Hpre at 1.
    clear. induction mid as [|c mid IH]; [reflexivity|].
    change (String c (mid +:+ pre +:+ PyStr.drop_chars n (PyStr.skip_continuation s))
            = String c ((mid +:+ pre) +:+ PyStr.drop_chars n (PyStr.skip_continuation s))).
    by rewrite IH.
Qed.

(** A name with the suffix [".txt"] is a non-empty stem followed by the
    four characters [.txt], in lower case. *)
Lemma suffix_txt_stem p :
  PyPath.suffix p = ".txt" ->
  exists stem, stem <> "" /\ PyPath.name p = stem +:+ ".txt".
Proof.
  unfold PyPath.suffix. cbv zeta. set (nm := PyPath.name p). clearbody nm.
  destruct (0 <? PyStr.rfind "." nm) eqn:Hlo; [|done].
  destruct (PyStr.rfind "." nm <? PyStr.len nm - 1) eqn:Hhi; [|done].
  cbn [andb]. apply Z.ltb_lt in Hlo. unfold PyStr.slice_from. intros Hsuf.
  destruct (drop_chars_suffix (Z.to_nat (PyStr.rfind "." nm)) nm) as (pre & Hpre & Hne).
  exists pre. split.
  - apply Hne; [lia|]. intros ->. by destruct (Z.to_nat _).
  - by rewrite <- Hsuf.
Qed.

(** ** The input resolver *)

Lemma is_file_frame p w : after (is_file p w) = w /\ events (is_file p w) = [].
Proof.
  unfold is_file. destruct (files w !! PyPath.to_str p) as [[|d|]|]; done.
Qed.

Lemma read_file_or_string_frame value w :
  after (_read_file_or_string value w) = w /\ events (_read_file_or_string value w) = [].
Proof.
  unfold _read_file_or_string, is_file, read_text.
  destruct (String.eqb _ ".txt"); [|done].
  run_step.
  destruct (files w !! PyPath.to_str (PyPath.of_str value)) as [[|[s| |rate a]|]|] eqn:Hat;
    simpl; rewrite ?Hat; done.
Qed.

Lemma read_file_or_string_other value w :
  PyPath.suffix (PyPath.of_str value) ≠ ".txt" ->
  _read_file_or_string value w = Run (Ok value) w [].
Proof.
  intros H. unfold _read_file_or_string.
  destruct (String.eqb_spec (PyPath.suffix (PyPath.of_str value)) ".txt"); done.
Qed.

(** C4, refuted as stated.  The value ["voice.txt"] has the suffix
    [".txt"] and names an existing regular file, one that cannot be read
    as text; the resolver raises instead of returning a string. *)
Lemma C4_resolver_raises_on_unreadable_file :
  let w := boot (<["voice.txt" := Regular Opaque]> ∅) in
  PyPath.suffix (PyPath.of_str "voice.txt") = ".txt"
  /\ outcome (is_file (PyPath.of_str "voice.txt") w) = Ok true
  /\ outcome (_read_file_or_string "voice.txt" w) = Raise (OSError "open")
  /\ ~ (forall value w', exists s, outcome (_read_file_or_string value w') = Ok s).
Proof.
  intros w. repeat split; try reflexivity.
  intros H. destruct (H "voice.txt" w) as [s Hs]. discriminate Hs.
Qed.

(** C4, as the code has it.  The resolver never prints and never changes
    the world.  When the suffix of the path is [".txt"] and a regular file
    that reads as text is there, it returns the contents stripped; when
    the suffix is anything else, or nothing or a directory is there, it
    returns the value itself; and it raises exactly when the suffix is
    [".txt"] and either [stat] fails with an error [pathlib] lets through
    or the regular file there cannot be read as text. *)
Theorem C4_resolver_cases value w :
  let p := PyPath.of_str value in
  let at_path := files w !! PyPath.to_str p in
  let r := _read_file_or_string value w in
  after r = w /\ events r = []
  /\ (forall s, PyPath.suffix p = ".txt" -> at_path = Some (Regular (Text s)) ->
      outcome r = Ok (PyStr.strip s))
  /\ (PyPath.suffix p ≠ ".txt" \/ at_path = None \/ at_path = Some Directory ->
      outcome r = Ok value)
  /\ ((exists e, outcome r = Raise e) <->
      PyPath.suffix p = ".txt"
      /\ (at_path = Some Unreachable \/ at_path = Some (Regular Opaque)
          \/ exists rate a, at_path = Some (Regular (Sound rate a)))).
Proof.
  intros p at_path r.
  destruct (read_file_or_string_frame value w) as [Ha He].
  split; [exact Ha|]. split; [exact He|].
  subst r. unfold _read_file_or_string, is_file, read_text. fold p.
  destruct (String.eqb_spec (PyPath.suffix p) ".txt") as [Hs|Hs].
  - run_step. fold at_path.
    destruct at_path as [[|[s| |rate a]|]|] eqn:Hat; simpl;
      fold at_path; rewrite ?Hat; simpl;
      (split; [intros s' _ Hs'; by simplify_eq|]);
      (split; [intros [?|[?|?]]; by simplify_eq|]);
      (split; [intros [e He']; try discriminate He'; split; eauto 6
              | intros [_ [?|[?|(? & ? & ?)]]]; simplify_eq; eauto]).
  - simpl. split; [done|]. split; [done|].
    split; [intros [e He']; discriminate He' | intros [? _]; done].
Qed.

(** C4 at a voice description kept in a file, at a literal description,
    and at the unreadable file of the refutation. *)
Lemma C4_resolver_cases_witness :
  let w := boot (<["voice.txt" := Regular (Text (" deep and calm" +:+ String "010" ""))]>
                 (<["locked.txt" := Regular Opaque]> ∅)) in
  outcome (_read_file_or_string "voice.txt" w) = Ok "deep and calm"
  /\ outcome (_read_file_or_string "A warm, friendly voice." w) = Ok "A warm, friendly voice."
  /\ outcome (_read_file_or_string "missing.txt" w) = Ok "missing.txt"
  /\ exists e, outcome (_read_file_or_string "locked.txt" w) = Raise e.
Proof.
  intros w.
  split; [|split; [|split]].
  - destruct (C4_resolver_cases "voice.txt" w) as (_ & _ & H & _).
    exact (H _ eq_refl eq_refl).
  - destruct (C4_resolver_cases "A warm, friendly voice." w) as (_ & _ & _ & H & _).
    apply H. left. vm_compute. discriminate.
  - destruct (C4_resolver_cases "missing.txt" w) as (_ & _ & _ & H & _).
    apply H. right. left. reflexivity.
  - destruct (C4_resolver_cases "locked.txt" w) as (_ & _ & _ & _ & H).
    apply H. split; [reflexivity|]. right. left. reflexivity.
Defined.

(** C9.  Whenever the suffix of the path is not exactly [".txt"], which
    is to say whenever the name of the path is not a non-empty stem
    followed by the lower-case characters [.txt], the resolver returns the
    value as it is, whatever the file system holds: it does not even
    look. *)
Theorem C9_only_exact_txt_suffix value w :
  PyPath.suffix (PyPath.of_str value) ≠ ".txt"
  \/ ~ (exists stem, stem <> "" /\ PyPath.name (PyPath.of_str value) = stem +:+ ".txt") ->
  _read_file_or_string value w = Run (Ok value) w [].
Proof.
  intros [H|H]; apply read_file_or_string_other; [exact H|].
  intros Hs. apply H. by apply suffix_txt_stem.
Qed.

(** C9 at an upper-case extension, at another extension and at a name
    without one, each naming a readable text file. *)
Lemma C9_only_exact_txt_suffix_witness :
  let w := boot (<["notes.TXT" := Regular (Text "shout")]>
                 (<["notes.md" := Regular (Text "whisper")]>
                 (<["notes" := Regular (Text "sing")]> ∅))) in
  _read_file_or_string "notes.TXT" w = Run (Ok "notes.TXT") w []
  /\ _read_file_or_string "notes.md" w = Run (Ok "notes.md") w []
  /\ _read_file_or_string "notes" w = Run (Ok "notes") w [].
Proof.
  intros w.
  split; [|split]; apply C9_only_exact_txt_suffix; left; vm_compute; discriminate.
Defined.

(** ** The model registry *)

Lemma lookup_clone s w : lookup "clone" (value s) w = Run (Ok (CLONE_IDS s)) w [].
Proof. destruct s; reflexivity. Qed.

Lemma lookup_custom s w : lookup "custom" (value s) w = Run (Ok (CUSTOM_IDS s)) w [].
Proof. destruct s; reflexivity. Qed.

Lemma lookup_design w : lookup "design" "1.7B" w = Run (Ok DESIGN_ID) w [].
Proof. reflexivity. Qed.

Lemma getitem_run {V} (d : gmap string V) k w :
  getitem d k w = match d !! k with
                  | Some v => Run (Ok v) w []
                  | None => Run (Raise (KeyError k)) w []
                  end.
Proof. unfold getitem. by destruct (d !! k). Qed.

Lemma lookup_unregistered mode size w :
  (mode, size) ∉ registered ->
  exists k, lookup mode size w = Run (Raise (KeyError k)) w [].
Proof.
  intros Hnot. unfold lookup, bind. rewrite getitem_run. unfold MODELS.
  destruct (decide (mode = "clone")) as [->|Hclone].
  { rewrite lookup_insert_eq. rewrite getitem_run.
    destruct (decide (size = "0.6B")) as [->|H1].
    { exfalso. apply Hnot. unfold registered. set_solver. }
    destruct (decide (size = "1.7B")) as [->|H2].
    { exfalso. apply Hnot. unfold registered. set_solver. }
    rewrite !lookup_insert_ne, lookup_empty by done. eauto. }
  rewrite lookup_insert_ne by done.
  destruct (decide (mode = "custom")) as [->|Hcustom].
  { rewrite lookup_insert_eq. rewrite getitem_run.
    destruct (decide (size = "0.6B")) as [->|H1].
    { exfalso. apply Hnot. unfold registered. set_solver. }
    destruct (decide (size = "1.7B")) as [->|H2].
    { exfalso. apply Hnot. unfold registered. set_solver. }
    rewrite !lookup_insert_ne, lookup_empty by done. eauto. }
  rewrite lookup_insert_ne by done.
  destruct (decide (mode = "design")) as [->|Hdesign].
  { rewrite lookup_insert_eq. rewrite getitem_run.
    destruct (decide (size = "1.7B")) as [->|H2].
    { exfalso. apply Hnot. unfold registered. set_solver. }
    rewrite !lookup_insert_ne, lookup_empty by done. eauto. }
  rewrite lookup_insert_ne, lookup_empty by done. eauto.
Qed.

(** ** The commands, run *)

Lemma check_apple_silicon_run E w :
  _check_apple_silicon E w = Run (Ok tt) w (platform_notice E).
Proof.
  unfold _check_apple_silicon, platform_notice, is_apple_silicon.
  by destruct (_ || _).
Qed.

Lemma load_model_run E model_id w :
  _load_model E model_id w = Run (load_model E model_id) w (load_events model_id).
Proof. unfold _load_model, with_status. run_step. reflexivity. Qed.

Lemma bind_run {A B} (m : M A) (k : A -> M B) w r w1 t1 :
  m w = Run r w1 t1 ->
  bind m k w =
  match r with
  | Ok a => Run (outcome (k a w1)) (after (k a w1)) (t1 ++ events (k a w1))
  | Raise e => Run (Raise e) w1 t1
  end.
Proof.
  intros H. destruct r; [by apply bind_ok | by apply bind_raise].
Qed.

Ltac step H := rewrite (bind_run _ _ _ _ _ _ H); cbn [outcome after events].

Lemma print_run msg w : print msg w = Run (Ok tt) w [Print msg].
Proof. reflexivity. Qed.

Lemma load_and_generate_run E model_id output kw w :
  load_and_generate E model_id output kw w =
  match load_model E model_id with
  | Raise e => Run (Raise e) w (load_events model_id)
  | Ok m =>
      let g := _generate_and_save E m output kw w in
      Run (outcome g) (after g) (load_events model_id ++ events g)
  end.
Proof.
  unfold load_and_generate. step (load_model_run E model_id w).
  by destruct (load_model E model_id).
Qed.

Lemma is_file_run p w :
  is_file p w =
  Run (match files w !! PyPath.to_str p with
       | Some (Regular _) => Ok true
       | Some Unreachable => Raise (OSError "stat")
       | Some Directory | None => Ok false
       end) w [].
Proof.
  unfold is_file. by destruct (files w !! PyPath.to_str p) as [[|d|]|].
Qed.

Lemma design_run E text voice language output w :
  design E text voice language output w =
  match outcome (_read_file_or_string voice w) with
  | Raise e => Run (Raise e) w (platform_notice E)
  | Ok voice_desc =>
      let rest := load_and_generate E DESIGN_ID output
                    [("text", PStr text); ("instruct", PStr voice_desc);
                     ("lang_code", PStr language)] w in
      Run (outcome rest) (after rest)
          (platform_notice E
           ++ [Print ("Mode [bold]design[/] | model [bold]" +:+ DESIGN_ID +:+ "[/]");
               Print ("Voice: [dim]" +:+ preview voice_desc +:+ "[/]")]
           ++ events rest)
  end.
Proof.
  unfold design, mbind, M_bind.
  step (check_apple_silicon_run E w).
  destruct (_read_file_or_string voice w) as [rv wv tv] eqn:Hv.
  destruct (read_file_or_string_frame voice w) as [Ha He].
  rewrite Hv in Ha, He. cbn [after events] in Ha, He. subst wv tv.
  step Hv. destruct rv as [voice_desc|e]; [|by rewrite app_nil_r].
  step (lookup_design w).
  step (print_run ("Mode [bold]design[/] | model [bold]" +:+ DESIGN_ID +:+ "[/]") w).
  step (print_run ("Voice: [dim]" +:+ preview voice_desc +:+ "[/]") w).
  reflexivity.
Qed.

Lemma clone_run E text ref_audio ref_text output model_size w :
  clone E text ref_audio ref_text output model_size w =
  match files w !! PyPath.to_str ref_audio with
  | Some (Regular _) =>
      let rest := load_and_generate E (CLONE_IDS model_size) output
                    [("text", PStr text);
                     ("ref_audio", PStr (PyPath.to_str ref_audio));
                     ("ref_text", PStr ref_text)] w in
      Run (outcome rest) (after rest)
          (platform_notice E
           ++ [Print ("Mode [bold]clone[/] | model [bold]" +:+ CLONE_IDS model_size +:+ "[/]")]
           ++ events rest)
  | Some Unreachable => Run (Raise (OSError "stat")) w (platform_notice E)
  | Some Directory | None =>
      Run (Raise (Exit 1)) w
          (platform_notice E
           ++ [Print ("[bold red]Error:[/] Reference audio not found: "
                      +:+ PyPath.to_str ref_audio)])
  end.
Proof.
  unfold clone, mbind, M_bind.
  step (check_apple_silicon_run E w).
  step (is_file_run ref_audio w).
  destruct (files w !! PyPath.to_str ref_audio) as [[|d|]|];
    cbn [negb outcome after events]; rewrite ?app_nil_r; try reflexivity.
  step (lookup_clone model_size w).
  step (print_run ("Mode [bold]clone[/] | model [bold]" +:+ CLONE_IDS model_size +:+ "[/]") w).
  reflexivity.
Qed.

Lemma custom_run E text speaker instruct language output model_size w :
  custom E text speaker instruct language output model_size w =
  let line := Print ("Mode [bold]custom[/] | model [bold]" +:+ CUSTOM_IDS model_size
                     +:+ "[/] | speaker [bold]" +:+ speaker +:+ "[/]") in
  let continue (v : pyval) (shown : list event) :=
    let rest := load_and_generate E (CUSTOM_IDS model_size) output
                  [("text", PStr text); ("voice", PStr speaker);
                   ("instruct", v); ("lang_code", PStr language)] w in
    Run (outcome rest) (after rest)
        (platform_notice E ++ [line] ++ shown ++ events rest)%list in
  match instruct with
  | Some i =>
      if PyStr.truthy i then
        match outcome (_read_file_or_string i w) with
        | Ok t => continue (PStr t) [Print ("Instruct: [dim]" +:+ preview t +:+ "[/]")]
        | Raise e => Run (Raise e) w (platform_notice E ++ [line])
        end
      else continue PNone []
  | None => continue PNone []
  end.
Proof.
  unfold custom, mbind, M_bind.
  step (check_apple_silicon_run E w).
  step (lookup_custom model_size w).
  step (print_run ("Mode [bold]custom[/] | model [bold]" +:+ CUSTOM_IDS model_size
                   +:+ "[/] | speaker [bold]" +:+ speaker +:+ "[/]") w).
  cbv zeta.
  destruct instruct as [i|]; [destruct (PyStr.truthy i)|].
  - destruct (_read_file_or_string i w) as [rv wv tv] eqn:Hv.
    destruct (read_file_or_string_frame i w) as [Ha He].
    rewrite Hv in Ha, He. cbn [after events] in Ha, He. subst wv tv.
    cbn [outcome].
    destruct rv as [t|e].
    + erewrite bind_run; [|erewrite bind_run; [|exact Hv];
        cbn [outcome after events];
        erewrite bind_run; [|apply print_run]; reflexivity].
      cbn [outcome after events]. reflexivity.
    + erewrite bind_run; [|erewrite bind_run; [|exact Hv]; reflexivity].
      cbn [outcome after events]. reflexivity.
  - erewrite bind_run; [|reflexivity]. cbn [outcome after events]. reflexivity.
  - erewrite bind_run; [|reflexivity]. cbn [outcome after events]. reflexivity.
Qed.

(** ** What a pipeline run can contain *)

Lemma generate_and_save_events E m output kw w :
  exists closing,
    events (_generate_and_save E m output kw w) = (loop_events E m kw w ++ closing)%list
    /\ forallb closes_pipeline closing = true.
Proof.
  destruct (raised (generate m kw)) as [e|] eqn:Hr.
  { rewrite (generate_and_save_raised E m output kw w e Hr). eexists. split; done. }
  destruct (received (generate m kw)) as [|c cs] eqn:Hcs.
  { rewrite (generate_and_save_empty E m output kw w Hr Hcs). eexists. split; done. }
  destruct (Np.concatenate (received (generate m kw))) as [a|e] eqn:Hc.
  - destruct (concatenate_sized _ _ Hc) as [n Hn].
    rewrite (generate_and_save_joined E m output kw w a n Hr Hc Hn).
    cbn [events]. eexists. split; [reflexivity|]. by destruct (_.2).
  - rewrite (generate_and_save_unjoined E m output kw w e Hr
               ltac:(rewrite Hcs; discriminate) Hc).
    eexists. split; done.
Qed.

Lemma generation_calls_app t1 t2 :
  generation_calls (t1 ++ t2) = (generation_calls t1 ++ generation_calls t2)%list.
Proof. apply omap_app. Qed.

Lemma loads_app t1 t2 : loads (t1 ++ t2) = (loads t1 ++ loads t2)%list.
Proof. apply omap_app. Qed.

Lemma statuses_app t1 t2 : statuses (t1 ++ t2) = (statuses t1 ++ statuses t2)%list.
Proof. apply omap_app. Qed.

Lemma closing_projections t :
  forallb closes_pipeline t = true ->
  generation_calls t = [] /\ loads t = [] /\ statuses t = [].
Proof.
  induction t as [|e t IH]; [done|]. simpl.
  intros [He Ht]%andb_prop. destruct (IH Ht) as (? & ? & ?).
  by destruct e.
Qed.

Lemma loop_projections E m kw w :
  generation_calls (loop_events E m kw w) = [kw]
  /\ loads (loop_events E m kw w) = []
  /\ statuses (loop_events E m kw w) = ["[bold green]Generating audio…"].
Proof.
  unfold loop_events. simpl.
  induction (received (generate m kw)) as [|c cs IH]; [done|]. exact IH.
Qed.

Lemma generate_and_save_projections E m output kw w :
  let t := events (_generate_and_save E m output kw w) in
  generation_calls t = [kw] /\ loads t = []
  /\ statuses t = ["[bold green]Generating audio…"].
Proof.
  destruct (generate_and_save_events E m output kw w) as (closing & -> & Hc).
  destruct (closing_projections _ Hc) as (Hg & Hl & Hs).
  destruct (loop_projections E m kw w) as (Hg' & Hl' & Hs').
  cbv zeta. rewrite generation_calls_app, loads_app, statuses_app.
  by rewrite Hg, Hl, Hs, Hg', Hl', Hs'.
Qed.

Lemma notice_projections E :
  generation_calls (platform_notice E) = [] /\ loads (platform_notice E) = []
  /\ statuses (platform_notice E) = [].
Proof. unfold platform_notice. by destruct (is_apple_silicon _). Qed.

Lemma written_notice E : written (platform_notice E) = [].
Proof. unfold platform_notice. by destruct (is_apple_silicon _). Qed.

(** What [load_and_generate] loads and calls. *)
Lemma load_and_generate_projections E model_id output kw w :
  let r := load_and_generate E model_id output kw w in
  loads (events r) = [model_id]
  /\ (forall m, load_model E model_id = Ok m -> generation_calls (events r) = [kw])
  /\ (forall e, load_model E model_id = Raise e ->
      generation_calls (events r) = [] /\ outcome r = Raise e).
Proof.
  cbv zeta. rewrite load_and_generate_run.
  destruct (load_model E model_id) as [m|e]; cbn [events outcome].
  - destruct (generate_and_save_projections E m output kw w) as (Hg & Hl & _).
    rewrite loads_app, generation_calls_app, Hg, Hl.
    split; [done|]. split; [done | intros ? [=]].
  - split; [done|]. split; [intros ? [=] | intros ? [= <-]; done].
Qed.

(** ** The commands *)

(** C5, refuted as stated.  The path names no file that exists: [stat]
    fails on it with an error [pathlib] lets through, as it does for a
    name longer than the file system allows.  [clone] then ends with that
    error; "Reference audio not found" is not printed and the exception is
    not [typer.Exit]. *)
Lemma C5_clone_raises_on_unreachable_reference :
  let w := boot (<["ghost.wav" := Unreachable]> ∅) in
  let r := clone (host "arm64" (chunks_of [[1]])) "hello" (PyPath.of_str "ghost.wav")
             "hi" (PyPath.of_str "output_clone.wav") large w in
  outcome r = Raise (OSError "stat")
  /\ outcome r <> Raise (Exit 1)
  /\ events r = [].
Proof. intros w r. split; [reflexivity|]. split; [discriminate | reflexivity]. Qed.

(** C5, as the code has it.  Whenever no regular file is found at the
    [--ref-audio] path, [clone] fails with exit status 1 before any status
    line is shown and before the loader is called, and nothing is
    generated or written.  When [is_file] answers no (nothing, or a
    directory, is there) and the path is printed as it is, the failure is
    the validation error: after the platform notice, if any, the message
    "Reference audio not found" with the path is printed and
    [typer.Exit(1)] is raised.  When [stat] itself fails, the failure is
    that error and no message is printed. *)
Theorem C5_clone_missing_reference E text ref_audio ref_text output model_size w :
  let r := clone E text ref_audio ref_text output model_size w in
  let at_path := files w !! PyPath.to_str ref_audio in
  ((forall d, at_path <> Some (Regular d)) ->
   exit_status (outcome r) = 1
   /\ statuses (events r) = []
   /\ loads (events r) = []
   /\ generation_calls (events r) = []
   /\ written (events r) = []
   /\ after r = w)
  /\ (at_path = None \/ at_path = Some Directory ->
      PyStr.plain (PyPath.to_str ref_audio) = true ->
      outcome r = Raise (Exit 1)
      /\ events r =
           (platform_notice E
            ++ [Print ("[bold red]Error:[/] Reference audio not found: "
                       +:+ PyPath.to_str ref_audio)])%list)
  /\ (at_path = Some Unreachable ->
      outcome r = Raise (OSError "stat") /\ events r = platform_notice E).
Proof.
  intros r at_path. subst r at_path. rewrite clone_run.
  destruct (notice_projections E) as (Hg & Hl & Hs).
  pose proof (written_notice E) as Hw.
  destruct (files w !! PyPath.to_str ref_audio) as [[|d|]|];
    cbn [outcome events after];
    rewrite ?statuses_app, ?loads_app, ?generation_calls_app, ?written_app,
      ?Hg, ?Hl, ?Hs, ?Hw;
    (split; [|split]); try done.
  all: try (intros H; by destruct (H d)).
  all: intros [H|H]; discriminate H.
Qed.

(** C5 on a host that is not Apple Silicon, with no file at the path. *)
Lemma C5_clone_missing_reference_witness :
  let g := chunks_of [[1]] in
  let r := clone (host "x86_64" g) "hello" (PyPath.of_str "voices/me.wav") "hi"
             (PyPath.of_str "output_clone.wav") large (boot ∅) in
  exit_status (outcome r) = 1
  /\ loads (events r) = []
  /\ events r = [Print APPLE_SILICON_WARNING;
                 Print "[bold red]Error:[/] Reference audio not found: voices/me.wav"].
Proof.
  intros g r.
  destruct (C5_clone_missing_reference (host "x86_64" g) "hello"
              (PyPath.of_str "voices/me.wav") "hi"
              (PyPath.of_str "output_clone.wav") large (boot ∅))
    as (Hany & Hmissing & _).
  destruct (Hany ltac:(intros d; discriminate)) as (Hs & _ & Hl & _).
  destruct (Hmissing ltac:(left; reflexivity) eq_refl) as (_ & He).
  split; [exact Hs|]. split; [exact Hl | exact He].
Defined.







(** C10.  On every host the platform check returns normally and leaves
    the world as it was: it prints nothing when the machine is "arm64" or
    "aarch64" and one warning otherwise.  Hence what a command returns or
    raises, and the world it leaves, do not depend on the machine the host
    reports. *)
Theorem C10_platform_check_never_aborts E w :
  let c := _check_apple_silicon E w in
  outcome c = Ok tt /\ after c = w
  /\ (platform_machine E = "arm64" \/ platform_machine E = "aarch64" -> events c = [])
  /\ (platform_machine E <> "arm64" -> platform_machine E <> "aarch64" ->
      events c = [Print APPLE_SILICON_WARNING])
  /\ (forall machine,
        let E' := on_machine machine E in
        (forall text ref_audio ref_text output size,
           outcome (clone E' text ref_audio ref_text output size w)
             = outcome (clone E text ref_audio ref_text output size w)
           /\ after (clone E' text ref_audio ref_text output size w)
             = after (clone E text ref_audio ref_text output size w))
        /\ (forall text voice language output,
              outcome (design E' text voice language output w)
                = outcome (design E text voice language output w)
              /\ after (design E' text voice language output w)
                = after (design E text voice language output w))
        /\ (forall text speaker instruct language output size,
              outcome (custom E' text speaker instruct language output size w)
                = outcome (custom E text speaker instruct language output size w)
              /\ after (custom E' text speaker instruct language output size w)
                = after (custom E text speaker instruct language output size w))).
Proof.
  intros c. subst c. rewrite check_apple_silicon_run. cbn [outcome after events].
  split; [done|]. split; [done|].
  unfold platform_notice, is_apple_silicon.
  split; [|split].
  - intros [-> | ->]; [done|]. by rewrite orb_true_r.
  - intros H1 H2.
    destruct (String.eqb_spec (platform_machine E) "arm64"); [done|].
    destruct (String.eqb_spec (platform_machine E) "aarch64"); done.
  - intros machine. split; [|split].
    + intros. rewrite !clone_run.
      destruct (files w !! PyPath.to_str ref_audio) as [[|d|]|]; split; reflexivity.
    + intros. rewrite !design_run.
      destruct (outcome (_read_file_or_string voice w)); split; reflexivity.
    + intros. rewrite !custom_run. cbv zeta.
      destruct instruct as [i|]; [destruct (PyStr.truthy i)|];
        [destruct (outcome (_read_file_or_string i w))| |]; split; reflexivity.
Qed.

(** C10 on an Intel host: the check warns and the command goes on to
    write the same file as on Apple Silicon. *)
Lemma C10_platform_check_never_aborts_witness :
  let E := host "arm64" (chunks_of [[3; 4]]) in
  let w := boot ∅ in
  outcome (_check_apple_silicon (on_machine "x86_64" E) w) = Ok tt
  /\ events (_check_apple_silicon (on_machine "x86_64" E) w)
     = [Print APPLE_SILICON_WARNING]
  /\ outcome (design (on_machine "x86_64" E) "hello" "A calm voice." "English"
                (PyPath.of_str "output_design.wav") w) = Ok tt.
Proof.
  intros E w.
  destruct (C10_platform_check_never_aborts (on_machine "x86_64" E) w)
    as (Ho & _ & _ & Hw & _).
  destruct (C10_platform_check_never_aborts E w) as (_ & _ & _ & _ & Hind).
  destruct (Hind "x86_64") as (_ & Hd & _).
  split; [exact Ho|]. split.
  - apply Hw; discriminate.
  - destruct (Hd "hello" "A calm voice." "English" (PyPath.of_str "output_design.wav"))
      as [H _].
    rewrite H. reflexivity.
Defined.

(** * Further properties of the script *)

(** ** Concatenation in general *)

Lemma concatenate_inv cs a :
  Np.concatenate cs = Ok a ->
  exists c rest,
    cs = c :: rest
    /\ Np.shape a = sum_list (map frames cs) :: tail (Np.shape c)
    /\ Np.data a = concat (map Np.data cs).
Proof.
  unfold Np.concatenate. destruct cs as [|c rest]; [done|].
  destruct (existsb _ _); [done|].
  destruct (negb (forallb (fun x => Nat.eqb _ _) _)); [done|].
  destruct (negb _); [done|].
  intros [= <-]. exists c, rest. repeat split.
Qed.

Lemma generate_and_save_ok_inv E m output kw w :
  outcome (_generate_and_save E m output kw w) = Ok tt ->
  exists a n,
    raised (generate m kw) = None
    /\ Np.concatenate (received (generate m kw)) = Ok a
    /\ Np.len a = Ok n
    /\ (soundfile_write E (PyPath.to_str output) a SAMPLE_RATE (files w)).2 = None
    /\ _generate_and_save E m output kw w =
       Run (Ok tt)
           {| files := (soundfile_write E (PyPath.to_str output) a SAMPLE_RATE (files w)).1;
              clock_reads := 2 + clock_reads w |}
           (loop_events E m kw w
            ++ [timer_stop E w; StatusExit; Concatenate (received (generate m kw));
                SfWrite (PyPath.to_str output) a SAMPLE_RATE;
                PrintSaved (PyPath.to_str output) (true_div n SAMPLE_RATE)
                  (elapsed_at E w)]).
Proof.
  destruct (raised (generate m kw)) as [e|] eqn:Hr.
  { by rewrite (generate_and_save_raised E m output kw w e Hr). }
  destruct (received (generate m kw)) as [|c cs] eqn:Hcs.
  { by rewrite (generate_and_save_empty E m output kw w Hr Hcs). }
  destruct (Np.concatenate (received (generate m kw))) as [a|e] eqn:Hc.
  - destruct (concatenate_sized _ _ Hc) as [n Hn].
    rewrite (generate_and_save_joined E m output kw w a n Hr Hc Hn).
    cbv zeta. cbn [outcome]. rewrite Hcs in Hc.
    destruct (soundfile_write E (PyPath.to_str output) a SAMPLE_RATE (files w)).2
      eqn:Hw; [done|].
    intros _. exists a, n. rewrite Hcs. repeat split; done.
  - by rewrite (generate_and_save_unjoined E m output kw w e Hr
                  ltac:(rewrite Hcs; discriminate) Hc).
Qed.

(** X1.  Whatever the shape of the chunks, as long as they concatenate:
    the buffer written has as many frames as the chunks have together, it
    holds their data in the order they were yielded, and the duration
    reported after a successful write is that number of frames divided by
    24000. *)
Theorem pipeline_duration_counts_frames E m output kw w a :
  raised (generate m kw) = None ->
  Np.concatenate (received (generate m kw)) = Ok a ->
  let r := _generate_and_save E m output kw w in
  let total := sum_list (map frames (received (generate m kw))) in
  written (events r) = [(PyPath.to_str output, a, 24000)]
  /\ frames a = total
  /\ Np.data a = concat (map Np.data (received (generate m kw)))
  /\ (outcome r = Ok tt ->
      reported_durations (events r) = [true_div (Z.of_nat total) 24000]).
Proof.
  intros Hr Hc r total.
  destruct (concatenate_inv _ _ Hc) as (c & rest & Hcs & Hshape & Hdata).
  assert (Hn : Np.len a = Ok (Z.of_nat total)).
  { unfold Np.len. by rewrite Hshape. }
  subst r. rewrite (generate_and_save_joined E m output kw w a _ Hr Hc Hn).
  cbv zeta. cbn [outcome events].
  rewrite !written_app, !reported_durations_app, written_loop, reported_durations_loop.
  split; [|split; [|split]].
  - simpl. by destruct (_.2).
  - unfold frames. by rewrite Hshape.
  - exact Hdata.
  - by destruct (_.2).
Qed.

(** X1 on two stereo chunks, of two frames and of one. *)
Lemma pipeline_duration_counts_frames_witness :
  let c1 := Np.mk [2%nat; 2%nat] [1; 2; 3; 4] in
  let c2 := Np.mk [1%nat; 2%nat] [5; 6] in
  let g := {| yielded := [{| audio := c1 |}; {| audio := c2 |}]; raised := None |} in
  let r := _generate_and_save (host "arm64" g) (fixed_model g)
             (PyPath.of_str "out.wav") [("text", PStr "hello")] (boot ∅) in
  written (events r) = [("out.wav", Np.mk [3%nat; 2%nat] [1; 2; 3; 4; 5; 6], 24000)]
  /\ reported_durations (events r) = [true_div 3 24000].
Proof.
  intros c1 c2 g r.
  destruct (pipeline_duration_counts_frames (host "arm64" g) (fixed_model g)
              (PyPath.of_str "out.wav") [("text", PStr "hello")] (boot ∅)
              (Np.mk [3%nat; 2%nat] [1; 2; 3; 4; 5; 6]) eq_refl eq_refl)
    as (Hw & _ & _ & Hd).
  split; [exact Hw | exact (Hd eq_refl)].
Defined.

(** ** What each command asks of the generator *)

(** X2.  With a regular file at the reference path, [clone] hands the
    loader the base model of the chosen size and, if a model comes back,
    calls generation once with exactly text, ref_audio (the path as
    [str] renders it, the one [is_file] was asked about) and ref_text. *)
Theorem clone_generation_parameters
    E text ref_audio ref_text output model_size w d :
  files w !! PyPath.to_str ref_audio = Some (Regular d) ->
  let r := clone E text ref_audio ref_text output model_size w in
  let model_id := match model_size with
                  | small => "mlx-community/Qwen3-TTS-12Hz-0.6B-Base-bf16"
                  | large => "mlx-community/Qwen3-TTS-12Hz-1.7B-Base-bf16"
                  end in
  loads (events r) = [model_id]
  /\ (forall m, load_model E model_id = Ok m ->
      generation_calls (events r)
      = [[("text", PStr text);
          ("ref_audio", PStr (PyPath.to_str ref_audio));
          ("ref_text", PStr ref_text)]]).
Proof.
  intros Hf r model_id. subst r. rewrite clone_run, Hf. cbv zeta. cbn [events].
  destruct (notice_projections E) as (Hg & Hl & _).
  destruct (load_and_generate_projections E (CLONE_IDS model_size) output
              [("text", PStr text); ("ref_audio", PStr (PyPath.to_str ref_audio));
               ("ref_text", PStr ref_text)] w) as (Hload & Hok & _).
  rewrite !loads_app, !generation_calls_app, Hg, Hl, Hload.
  assert (Hid : CLONE_IDS model_size = model_id) by (by destruct model_size).
  rewrite <- Hid. split; [done|]. intros m Hm. by rewrite (Hok m Hm).
Qed.

(** X2 with a reference given as [./voices//me.wav]: generation receives
    the path normalised. *)
Lemma clone_generation_parameters_witness :
  let E := host "arm64" (chunks_of [[1]]) in
  let w := boot (<["voices/me.wav" := Regular Opaque]> ∅) in
  generation_calls
    (events (clone E "hello" (PyPath.of_str "./voices//me.wav") "hi there"
               (PyPath.of_str "output_clone.wav") small w))
  = [[("text", PStr "hello"); ("ref_audio", PStr "voices/me.wav");
      ("ref_text", PStr "hi there")]].
Proof.
  intros E w.
  destruct (clone_generation_parameters E "hello" (PyPath.of_str "./voices//me.wav")
              "hi there" (PyPath.of_str "output_clone.wav") small w Opaque eq_refl)
    as [_ H].
  exact (H (fixed_model (chunks_of [[1]])) eq_refl).
Defined.

(** X3.  [design] resolves the voice description before anything else
    happens.  If that raises, the command ends with the same exception
    having printed at most the platform warning, and nothing was loaded.
    Otherwise, when the description shown is printed as it is and the
    loader returns a model, generation is called once with exactly text,
    instruct (the whole resolved description, not the shortened one that
    is shown) and lang_code. *)
Theorem design_generation_parameters E text voice language output w :
  let r := design E text voice language output w in
  (forall e, outcome (_read_file_or_string voice w) = Raise e ->
     outcome r = Raise e /\ events r = platform_notice E)
  /\ (forall voice_desc m,
        outcome (_read_file_or_string voice w) = Ok voice_desc ->
        PyStr.plain (preview voice_desc) = true ->
        load_model E "mlx-community/Qwen3-TTS-12Hz-1.7B-VoiceDesign-bf16" = Ok m ->
        generation_calls (events r)
        = [[("text", PStr text); ("instruct", PStr voice_desc);
            ("lang_code", PStr language)]]).
Proof.
  intros r. subst r. rewrite design_run. split.
  - intros e ->. done.
  - intros vd m -> _ Hm. cbv zeta. cbn [events].
    destruct (notice_projections E) as (Hg & _ & _).
    destruct (load_and_generate_projections E DESIGN_ID output
                [("text", PStr text); ("instruct", PStr vd);
                 ("lang_code", PStr language)] w) as (_ & Hok & _).
    by rewrite !generation_calls_app, Hg, (Hok m Hm).
Qed.

(** X3 with a description of a hundred characters kept in a file. *)
Lemma design_generation_parameters_witness :
  let long := "0123456789012345678901234567890123456789012345678901234567890123456789012345678901234567890123456789" in
  let E := host "arm64" (chunks_of [[1]]) in
  let w := boot (<["voice.txt" := Regular (Text long)]> ∅) in
  generation_calls
    (events (design E "hello" "voice.txt" "English"
               (PyPath.of_str "output_design.wav") w))
  = [[("text", PStr "hello"); ("instruct", PStr long); ("lang_code", PStr "English")]].
Proof.
  intros long E w.
  destruct (design_generation_parameters E "hello" "voice.txt" "English"
              (PyPath.of_str "output_design.wav") w) as [_ H].
  exact (H long (fixed_model (chunks_of [[1]])) eq_refl eq_refl eq_refl).
Defined.

(** ** Failing loads, successful runs, and the file system *)

Lemma load_and_generate_failed E model_id output kw w e :
  load_model E model_id = Raise e ->
  load_and_generate E model_id output kw w = Run (Raise e) w (load_events model_id).
Proof. intros H. by rewrite load_and_generate_run, H. Qed.

(** X4.  When the loader raises, each command ends with the loader's
    exception without having called generation or [sf.write].  (For
    [design] and [custom] this is for runs in which what they print of the
    user's text before loading is printed as it is.) *)
Theorem loader_failure_aborts E w e :
  (forall text ref_audio ref_text output model_size d,
     files w !! PyPath.to_str ref_audio = Some (Regular d) ->
     load_model E (CLONE_IDS model_size) = Raise e ->
     stopped_before_generation e
       (clone E text ref_audio ref_text output model_size w))
  /\ (forall text voice language output voice_desc,
        outcome (_read_file_or_string voice w) = Ok voice_desc ->
        PyStr.plain (preview voice_desc) = true ->
        load_model E DESIGN_ID = Raise e ->
        stopped_before_generation e (design E text voice language output w))
  /\ (forall text speaker instruct language output model_size,
        PyStr.plain speaker = true ->
        (forall i, instruct = Some i -> i <> "" ->
           exists t, outcome (_read_file_or_string i w) = Ok t
                     /\ PyStr.plain (preview t) = true) ->
        load_model E (CUSTOM_IDS model_size) = Raise e ->
        stopped_before_generation e
          (custom E text speaker instruct language output model_size w)).
Proof.
  destruct (notice_projections E) as (Hg & _ & _).
  pose proof (written_notice E) as Hw.
  unfold stopped_before_generation. split; [|split].
  - intros text ref_audio ref_text output model_size d Hf Hl.
    rewrite clone_run, Hf. cbv zeta.
    rewrite (load_and_generate_failed _ _ _ _ _ _ Hl). cbn [outcome after events].
    rewrite !generation_calls_app, !written_app, Hg, Hw. done.
  - intros text voice language output vd Hv _ Hl.
    rewrite design_run, Hv. cbv zeta.
    rewrite (load_and_generate_failed _ _ _ _ _ _ Hl). cbn [outcome after events].
    rewrite !generation_calls_app, !written_app, Hg, Hw. done.
  - intros text speaker instruct language output model_size _ Hres Hl.
    rewrite custom_run. cbv zeta.
    destruct instruct as [i|]; [destruct i as [|c i']|]; cbn [PyStr.truthy].
    + rewrite (load_and_generate_failed _ _ _ _ _ _ Hl). cbn [outcome after events].
      rewrite !generation_calls_app, !written_app, Hg, Hw. done.
    + destruct (Hres _ eq_refl ltac:(discriminate)) as (t & -> & _).
      rewrite (load_and_generate_failed _ _ _ _ _ _ Hl). cbn [outcome after events].
      rewrite !generation_calls_app, !written_app, Hg, Hw. done.
    + rewrite (load_and_generate_failed _ _ _ _ _ _ Hl). cbn [outcome after events].
      rewrite !generation_calls_app, !written_app, Hg, Hw. done.
Qed.

(** X4 offline. *)
Lemma loader_failure_aborts_witness :
  let r := custom offline "hello" "Aiden" None "English"
             (PyPath.of_str "output_custom.wav") large (boot ∅) in
  outcome r = Raise (Foreign "download failed")
  /\ generation_calls (events r) = []
  /\ written (events r) = [].
Proof.
  intros r.
  destruct (loader_failure_aborts offline (boot ∅) (Foreign "download failed"))
    as (_ & _ & H).
  exact (H "hello" "Aiden" None "English" (PyPath.of_str "output_custom.wav") large
           eq_refl ltac:(intros i [=]) eq_refl).
Defined.

Lemma saved_once_prefix output o a t pre :
  written pre = [] ->
  saved_once output (Run o a t) ->
  saved_once output (Run o a (pre ++ t)).
Proof.
  intros Hpre (buf & before & el & Hw & He). cbn [events] in *.
  exists buf, (pre ++ before)%list, el. cbn [events].
  rewrite written_app, Hpre, Hw, He, app_assoc. done.
Qed.

Lemma generate_and_save_saved E m output kw w :
  outcome (_generate_and_save E m output kw w) = Ok tt ->
  saved_once output (_generate_and_save E m output kw w).
Proof.
  intros Hok.
  destruct (generate_and_save_ok_inv E m output kw w Hok)
    as (a & n & Hr & Hc & Hn & Hw & ->).
  destruct (concatenate_inv _ _ Hc) as (c & rest & Hcs & Hshape & Hdata).
  assert (n = Z.of_nat (frames a)) as ->.
  { unfold Np.len, frames in *. rewrite Hshape in *. simpl in *. congruence. }
  exists a,
    (loop_events E m kw w
     ++ [timer_stop E w; StatusExit; Concatenate (received (generate m kw));
         SfWrite (PyPath.to_str output) a SAMPLE_RATE])%list,
    (elapsed_at E w).
  cbn [events]. rewrite written_app, written_loop.
  split; [done|].
  rewrite <- app_assoc. reflexivity.
Qed.

Lemma load_and_generate_saved E model_id output kw w :
  outcome (load_and_generate E model_id output kw w) = Ok tt ->
  saved_once output (load_and_generate E model_id output kw w).
Proof.
  rewrite load_and_generate_run.
  destruct (load_model E model_id) as [m|e]; [|done].
  cbv zeta. cbn [outcome]. intros Hok.
  apply saved_once_prefix; [done|].
  rewrite run_eta. by apply generate_and_save_saved.
Qed.

(** X5.  A command that returns normally has called [sf.write] exactly
    once, for its output path at 24000 Hz, and the last thing it printed
    is the message giving that path and, as duration, the frames of the
    buffer written divided by 24000. *)
Theorem success_means_saved_once E w :
  (forall text ref_audio ref_text output model_size,
     let r := clone E text ref_audio ref_text output model_size w in
     outcome r = Ok tt -> saved_once output r)
  /\ (forall text voice language output,
        let r := design E text voice language output w in
        outcome r = Ok tt -> saved_once output r)
  /\ (forall text speaker instruct language output model_size,
        let r := custom E text speaker instruct language output model_size w in
        outcome r = Ok tt -> saved_once output r).
Proof.
  pose proof (written_notice E) as Hn.
  split; [|split].
  - intros text ref_audio ref_text output model_size r. subst r.
    rewrite clone_run.
    destruct (files w !! PyPath.to_str ref_audio) as [[|d|]|]; try done.
    cbv zeta. cbn [outcome]. intros Hok.
    rewrite app_assoc. apply saved_once_prefix.
    { by rewrite written_app, Hn. }
    rewrite run_eta. by apply load_and_generate_saved.
  - intros text voice language output r. subst r. rewrite design_run.
    destruct (outcome (_read_file_or_string voice w)) as [vd|e]; [|done].
    cbv zeta. cbn [outcome]. intros Hok.
    rewrite app_assoc. apply saved_once_prefix.
    { by rewrite written_app, Hn. }
    rewrite run_eta. by apply load_and_generate_saved.
  - intros text speaker instruct language output model_size r. subst r.
    rewrite custom_run. cbv zeta.
    destruct instruct as [i|]; [destruct (PyStr.truthy i)|];
      [destruct (outcome (_read_file_or_string i w)) as [t|e]; [|done]| |];
      cbn [outcome]; intros Hok;
      rewrite !app_assoc; (apply saved_once_prefix;
        [by rewrite !written_app, Hn|]);
      rewrite run_eta; by apply load_and_generate_saved.
Qed.

(** X5 at a run of [design] that yields two chunks. *)
Lemma success_means_saved_once_witness :
  let E := host "arm64" (chunks_of [[7; -2]; [5]]) in
  saved_once (PyPath.of_str "output_design.wav")
    (design E "hello" "A calm voice." "English"
       (PyPath.of_str "output_design.wav") (boot ∅)).
Proof.
  intros E.
  destruct (success_means_saved_once E (boot ∅)) as (_ & H & _).
  exact (H "hello" "A calm voice." "English" (PyPath.of_str "output_design.wav") eq_refl).
Defined.

(** ** The status line *)

Lemma status_run_app up t1 t2 :
  status_run up (t1 ++ t2) =
  match status_run up t1 with
  | Some b => status_run b t2
  | None => None
  end.
Proof.
  revert up. induction t1 as [|e t1 IH]; intros up; [done|].
  destruct e; simpl; try apply IH; destruct up; try done; apply IH.
Qed.

Lemma status_run_appends up cs : status_run up (map Append cs) = Some up.
Proof. induction cs as [|c cs IH]; [done|]. exact IH. Qed.

Lemma status_run_notice up E : status_run up (platform_notice E) = Some up.
Proof. unfold platform_notice. by destruct (is_apple_silicon _). Qed.

Lemma status_run_loop E m kw w : status_run false (loop_events E m kw w) = Some true.
Proof. unfold loop_events. simpl. apply status_run_appends. Qed.

Lemma generate_and_save_balanced E m output kw w :
  statuses_balanced (events (_generate_and_save E m output kw w)).
Proof.
  unfold statuses_balanced.
  destruct (raised (generate m kw)) as [e|] eqn:Hr.
  { rewrite (generate_and_save_raised E m output kw w e Hr). cbn [events].
    by rewrite status_run_app, status_run_loop. }
  destruct (received (generate m kw)) as [|c cs] eqn:Hcs.
  { rewrite (generate_and_save_empty E m output kw w Hr Hcs). cbn [events].
    by rewrite status_run_app, status_run_loop. }
  destruct (Np.concatenate (received (generate m kw))) as [a|e] eqn:Hc.
  - destruct (concatenate_sized _ _ Hc) as [n Hn].
    rewrite (generate_and_save_joined E m output kw w a n Hr Hc Hn).
    cbv zeta. cbn [events]. rewrite !status_run_app, status_run_loop.
    simpl. by destruct (_.2).
  - rewrite (generate_and_save_unjoined E m output kw w e Hr
               ltac:(rewrite Hcs; discriminate) Hc). cbn [events].
    by rewrite status_run_app, status_run_loop.
Qed.

Lemma load_and_generate_balanced E model_id output kw w :
  statuses_balanced (events (load_and_generate E model_id output kw w)).
Proof.
  unfold statuses_balanced. rewrite load_and_generate_run.
  destruct (load_model E model_id) as [m|e]; [|done].
  cbv zeta. cbn [events]. rewrite status_run_app. simpl.
  apply generate_and_save_balanced.
Qed.

(** X7.  In every run of every command, however it ends, each status
    line put up is taken down again before the next one goes up and
    before the command ends: the loader's or the generator's failure
    never leaves "Loading model" or "Generating audio" showing. *)
Theorem status_lines_always_taken_down E w :
  (forall text ref_audio ref_text output model_size,
     statuses_balanced
       (events (clone E text ref_audio ref_text output model_size w)))
  /\ (forall text voice language output,
        statuses_balanced (events (design E text voice language output w)))
  /\ (forall text speaker instruct language output model_size,
        statuses_balanced
          (events (custom E text speaker instruct language output model_size w))).
Proof.
  unfold statuses_balanced. split; [|split].
  - intros. rewrite clone_run.
    destruct (files w !! PyPath.to_str ref_audio) as [[|d|]|];
      cbv zeta; cbn [events]; rewrite ?status_run_app, status_run_notice; try done.
    simpl. apply load_and_generate_balanced.
  - intros. rewrite design_run.
    destruct (outcome (_read_file_or_string voice w)) as [vd|e];
      cbv zeta; cbn [events]; rewrite ?status_run_app, status_run_notice; try done.
    simpl. apply load_and_generate_balanced.
  - intros. rewrite custom_run. cbv zeta.
    destruct instruct as [i|]; [destruct (PyStr.truthy i)|];
      [destruct (outcome (_read_file_or_string i w)) as [t|e]| |];
      cbn [events]; rewrite ?status_run_app, status_run_notice; try done;
      simpl; apply load_and_generate_balanced.
Qed.

(** ** The elapsed time *)

Lemma reported_elapsed_app t1 t2 :
  reported_elapsed (t1 ++ t2) = (reported_elapsed t1 ++ reported_elapsed t2)%list.
Proof. apply omap_app. Qed.

Lemma reported_elapsed_loop E m kw w : reported_elapsed (loop_events E m kw w) = [].
Proof.
  unfold loop_events. simpl.
  induction (received (generate m kw)) as [|c cs IH]; [done|]. exact IH.
Qed.

(** X9.  The elapsed time a pipeline run prints is the second clock
    reading minus the first, two consecutive readings; with a clock that
    never runs backwards it is never negative. *)
Theorem elapsed_never_negative E m output kw w :
  monotonic E ->
  forall el,
    el ∈ reported_elapsed (events (_generate_and_save E m output kw w)) ->
    el = (perf_counter_at E (S (clock_reads w)) - perf_counter_at E (clock_reads w))%Q
    /\ (0 <= el)%Q.
Proof.
  intros Hmono el.
  destruct (raised (generate m kw)) as [e|] eqn:Hr.
  { rewrite (generate_and_save_raised E m output kw w e Hr). cbn [events].
    rewrite reported_elapsed_app, reported_elapsed_loop. simpl.
    intros H. by apply elem_of_nil in H. }
  destruct (received (generate m kw)) as [|c cs] eqn:Hcs.
  { rewrite (generate_and_save_empty E m output kw w Hr Hcs). cbn [events].
    rewrite reported_elapsed_app, reported_elapsed_loop. simpl.
    intros H. by apply elem_of_nil in H. }
  destruct (Np.concatenate (received (generate m kw))) as [a|e] eqn:Hc.
  - destruct (concatenate_sized _ _ Hc) as [n Hn].
    rewrite (generate_and_save_joined E m output kw w a n Hr Hc Hn).
    cbv zeta. cbn [events]. rewrite !reported_elapsed_app, reported_elapsed_loop.
    simpl. destruct (_.2); simpl.
    + intros H. by apply elem_of_nil in H.
    + intros H. apply list_elem_of_singleton in H. subst el.
      split; [reflexivity|]. unfold elapsed_at.
      apply (proj1 (Qle_minus_iff _ _)). apply Hmono.
  - rewrite (generate_and_save_unjoined E m output kw w e Hr
               ltac:(rewrite Hcs; discriminate) Hc). cbn [events].
    rewrite reported_elapsed_app, reported_elapsed_loop. simpl.
    intros H. by apply elem_of_nil in H.
Qed.

(** X9 on a host whose clock advances by one per reading. *)
Lemma elapsed_never_negative_witness :
  let g := chunks_of [[7; -2]; [5]] in
  let r := _generate_and_save (host "arm64" g) (fixed_model g)
             (PyPath.of_str "out.wav") [] (boot ∅) in
  reported_elapsed (events r) = [(1 - 0)%Q] /\ (0 <= 1 - 0)%Q.
Proof.
  intros g r. split; [reflexivity|].
  assert (Hmono : monotonic (host "arm64" g)).
  { intros n. unfold host, perf_counter_at, Qle. simpl. lia. }
  destruct (elapsed_never_negative (host "arm64" g) (fixed_model g)
              (PyPath.of_str "out.wav") [] (boot ∅) Hmono (1 - 0)%Q
              ltac:(apply list_elem_of_here)) as [_ H].
  exact H.
Defined.

(** ** The registry once more *)

Lemma lookup_ok_registered mode size w model_id :
  outcome (lookup mode size w) = Ok model_id ->
  (mode, size, model_id) ∈
    [("clone", "0.6B", "mlx-community/Qwen3-TTS-12Hz-0.6B-Base-bf16");
     ("clone", "1.7B", "mlx-community/Qwen3-TTS-12Hz-1.7B-Base-bf16");
     ("custom", "0.6B", "mlx-community/Qwen3-TTS-12Hz-0.6B-CustomVoice-bf16");
     ("custom", "1.7B", "mlx-community/Qwen3-TTS-12Hz-1.7B-CustomVoice-bf16");
     ("design", "1.7B", "mlx-community/Qwen3-TTS-12Hz-1.7B-VoiceDesign-bf16")].
Proof.
  intros Hok.
  destruct (decide ((mode, size) ∈ registered)) as [Hin|Hnot].
  - unfold registered in Hin.
    repeat (apply elem_of_cons in Hin as [[= -> ->]|Hin];
            [vm_compute in Hok; injection Hok as <-; set_solver|]).
    by apply elem_of_nil in Hin.
  - destruct (lookup_unregistered mode size w Hnot) as [k Hk].
    rewrite Hk in Hok. discriminate.
Qed.

(** X12.  The table gives no identifier twice: two lookups that return
    the same identifier were for the same mode and the same size. *)
Theorem registry_identifiers_distinct w mode1 size1 mode2 size2 model_id :
  outcome (lookup mode1 size1 w) = Ok model_id ->
  outcome (lookup mode2 size2 w) = Ok model_id ->
  mode1 = mode2 /\ size1 = size2.
Proof.
  intros H1%lookup_ok_registered H2%lookup_ok_registered.
  apply list_elem_of_In in H1, H2. simpl in H1, H2.
  destruct H1 as [H1|[H1|[H1|[H1|[H1|[]]]]]];
    destruct H2 as [H2|[H2|[H2|[H2|[H2|[]]]]]];
    simplify_eq; done.
Qed.

(** X12 at the large clone model, looked up twice. *)
Lemma registry_identifiers_distinct_witness :
  "clone" = "clone" /\ "1.7B" = value large.
Proof.
  exact (registry_identifiers_distinct (boot ∅) "clone" "1.7B" "clone" (value large)
           "mlx-community/Qwen3-TTS-12Hz-1.7B-Base-bf16" eq_refl eq_refl).
Defined.

(** X13.  In a run in which the speaker name and the instruction shown
    are printed as they are and resolving the instruction does not raise,
    [custom] hands the loader exactly one identifier: the custom-voice
    model of the chosen size. *)
Theorem custom_loads_by_size E text speaker instruct language output model_size w :
  PyStr.plain speaker = true ->
  (forall i, instruct = Some i -> i <> "" ->
     exists t, outcome (_read_file_or_string i w) = Ok t
               /\ PyStr.plain (preview t) = true) ->
  loads (events (custom E text speaker instruct language output model_size w))
  = [match model_size with
     | small => "mlx-community/Qwen3-TTS-12Hz-0.6B-CustomVoice-bf16"
     | large => "mlx-community/Qwen3-TTS-12Hz-1.7B-CustomVoice-bf16"
     end].
Proof.
  intros _ Hres. rewrite custom_run. cbv zeta.
  destruct (notice_projections E) as (_ & Hl & _).
  assert (Hload : forall v,
    loads (events (load_and_generate E (CUSTOM_IDS model_size) output
                     [("text", PStr text); ("voice", PStr speaker);
                      ("instruct", v); ("lang_code", PStr language)] w))
    = [CUSTOM_IDS model_size]).
  { intros v. apply load_and_generate_projections. }
  assert (Hid : CUSTOM_IDS model_size
                = match model_size with
                  | small => "mlx-community/Qwen3-TTS-12Hz-0.6B-CustomVoice-bf16"
                  | large => "mlx-community/Qwen3-TTS-12Hz-1.7B-CustomVoice-bf16"
                  end) by (by destruct model_size).
  rewrite <- Hid.
  destruct instruct as [i|]; [destruct i as [|c i']|]; cbn [PyStr.truthy].
  - cbn [events]. by rewrite !loads_app, Hl, Hload.
  - destruct (Hres _ eq_refl ltac:(discriminate)) as (t & -> & _).
    cbn [events]. by rewrite !loads_app, Hl, Hload.
  - cbn [events]. by rewrite !loads_app, Hl, Hload.
Qed.

(** X13 with no instruction and the small size. *)
Lemma custom_loads_by_size_witness :
  loads (events (custom (host "arm64" (chunks_of [[1]])) "hello" "Aiden" None
                   "English" (PyPath.of_str "output_custom.wav") small (boot ∅)))
  = ["mlx-community/Qwen3-TTS-12Hz-0.6B-CustomVoice-bf16"].
Proof.
  exact (custom_loads_by_size (host "arm64" (chunks_of [[1]])) "hello" "Aiden" None
           "English" (PyPath.of_str "output_custom.wav") small (boot ∅)
           eq_refl ltac:(intros i [=])).
Defined.
